(** * Order notification workflow: the order state machine and its orchestration

    A shallow embedding of [order_notification/schemas/order.py],
    [order_notification/schemas/notification.py],
    [order_notification/activities/notifications.py] and
    [order_notification/workflows/orders.py].

    Conventions.
    - A [StrEnum] is an inductive type; each enum lives in a module of its
      own name so that members read as in the source
      ([OrderState.ORDER_ACCEPTED], [UserNotificationMessageType.ORDER_ACCEPTED]).
    - [datetime] and [timedelta] values are integers counting microseconds
      (Python stores both with exactly that resolution), so the arithmetic
      of [_wait_with_expiration] is plain arithmetic on [Z].
    - The module-level dict [_STATE_TRANSITIONS] is an association list read
      with [dict_get], the counterpart of [dict.get(key, default)].
    - Calls of [workflow.logger] change nothing of the instance and are
      left out (a format string that does not fit its arguments, as at
      line 160 of the workflow, is reported by the logging module and not
      raised).
    - The workflow coroutine [Orders.run] is written as a machine whose
      control points are the [await]s of the source; one step consumes one
      workflow task delivered by the runtime (a signal, the resolution of
      the pending activity, or the firing of the pending timer).  A signal
      handler runs to its end before [run] goes on;
      [workflow.wait_condition(f, timeout=d)] ends as soon as [f()] holds,
      and raises [asyncio.TimeoutError] when the runtime fires its timer
      first. *)

From Stdlib Require Import List ZArith Bool String Lia Sorted.
Import ListNotations.
Local Open Scope Z_scope.

(* ------------------------------------------------------------------ *)
(** ** schemas/order.py *)

Module OrderState.

Inductive t : Set :=
| ORDER_PLACED
| VENDOR_NOTIFIED
| ORDER_ACCEPTED
| ORDER_DECLINED
| ORDER_PREPARATION
| ORDER_READY
| ORDER_PICKED_UP.

Definition eqb (a b : t) : bool :=
  match a, b with
  | ORDER_PLACED, ORDER_PLACED
  | VENDOR_NOTIFIED, VENDOR_NOTIFIED
  | ORDER_ACCEPTED, ORDER_ACCEPTED
  | ORDER_DECLINED, ORDER_DECLINED
  | ORDER_PREPARATION, ORDER_PREPARATION
  | ORDER_READY, ORDER_READY
  | ORDER_PICKED_UP, ORDER_PICKED_UP => true
  | _, _ => false
  end.

End OrderState.

(** [x in xs] on a Python list of states. *)
Fixpoint contains (x : OrderState.t) (xs : list OrderState.t) : bool :=
  match xs with
  | [] => false
  | y :: ys => if OrderState.eqb y x then true else contains x ys
  end.

(** [d.get(key, default)] on a dict keyed by states. *)
Fixpoint dict_get {V : Type} (d : list (OrderState.t * V))
         (key : OrderState.t) (default : V) : V :=
  match d with
  | [] => default
  | (k, v) :: rest => if OrderState.eqb k key then v else dict_get rest key default
  end.

(** order.py, lines 74-85. *)
Definition _STATE_TRANSITIONS : list (OrderState.t * list OrderState.t) :=
  [ (OrderState.ORDER_PLACED, [OrderState.VENDOR_NOTIFIED]);
    (OrderState.VENDOR_NOTIFIED,
       [OrderState.ORDER_ACCEPTED; OrderState.ORDER_DECLINED]);
    (OrderState.ORDER_ACCEPTED, [OrderState.ORDER_PREPARATION]);
    (OrderState.ORDER_PREPARATION, [OrderState.ORDER_READY]);
    (OrderState.ORDER_READY, [OrderState.ORDER_PICKED_UP]);
    (OrderState.ORDER_PICKED_UP, []);
    (OrderState.ORDER_DECLINED, []) ].

(** order.py, lines 30-59: the properties of [OrderState]. *)
Definition is_terminal_state (self : OrderState.t) : bool :=
  contains self [OrderState.ORDER_PICKED_UP; OrderState.ORDER_DECLINED].

Definition requires_vendor_action (self : OrderState.t) : bool :=
  contains self [OrderState.VENDOR_NOTIFIED; OrderState.ORDER_PREPARATION;
                 OrderState.ORDER_READY].

Definition allowed_next_states (self : OrderState.t) : list OrderState.t :=
  dict_get _STATE_TRANSITIONS self [].

Definition can_transition_to (self next_state : OrderState.t) : bool :=
  contains next_state (allowed_next_states self).

(** order.py, lines 88-105. *)
Record OrderWorkflowInput : Set := {
  wi_order_id : string;
  expiration_time : Z            (* seconds *)
}.

Record OrderDetails : Set := {
  od_order_id : string;
  od_user_id : string;
  od_vendor_id : string;
  order_date : Z
}.

(* ------------------------------------------------------------------ *)
(** ** schemas/notification.py, schemas/user.py, schemas/vendor.py *)

Module NotificationChannelType.
Inductive t : Set := SMS | PUSH.
End NotificationChannelType.

Module VendorNotificationMessageType.
Inductive t : Set := NEW_ORDER.
End VendorNotificationMessageType.

Module UserNotificationMessageType.
Inductive t : Set :=
| ORDER_ACCEPTED
| ORDER_CANCELED
| ORDER_BEING_PREPARED
| ORDER_READY
| ORDER_COMPLETED.
End UserNotificationMessageType.

Record UserNotificationInput : Set := {
  un_order_id : string;
  un_user_id : string;
  un_message : UserNotificationMessageType.t;
  user_notification_preference : option NotificationChannelType.t
}.

Record VendorNotificationInput : Set := {
  vn_order_id : string;
  vn_vendor_id : string;
  vn_message : VendorNotificationMessageType.t;
  vendor_notification_preference : option NotificationChannelType.t
}.

(** The preference records carry a channel, never [None]. *)
Record UserPreference : Set := {
  up_user_id : string;
  up_notification_preference : NotificationChannelType.t
}.

Record VendorPreference : Set := {
  vp_vendor_id : string;
  vp_notification_preference : NotificationChannelType.t
}.

(* ------------------------------------------------------------------ *)
(** ** activities: what a workflow can hand to [workflow.execute_activity] *)

Inductive Activity : Set :=
| get_order_details (order_id : string)
| get_vendor_preference (vendor_id : string)
| get_user_preference (user_id : string)
| notify_user_sms (arg : UserNotificationInput)
| notify_user_push (arg : UserNotificationInput)
| notify_vendor_sms (arg : VendorNotificationInput)
| notify_vendor_push (arg : VendorNotificationInput).

(** notifications.py, lines 61-87.  [notify_user] awaits at most one
    activity, chosen by the [match] on the preference; the result is the
    activity it awaits, and [None] when no [case] applies and the function
    falls through to its implicit [return None]. *)
Definition notify_user (arg : UserNotificationInput) : option Activity :=
  match user_notification_preference arg with
  | Some NotificationChannelType.PUSH => Some (notify_user_push arg)
  | Some NotificationChannelType.SMS => Some (notify_user_sms arg)
  | None => None
  end.

(** notifications.py, lines 133-158. *)
Definition notify_vendor (arg : VendorNotificationInput) : option Activity :=
  match vendor_notification_preference arg with
  | Some NotificationChannelType.PUSH => Some (notify_vendor_push arg)
  | Some NotificationChannelType.SMS => Some (notify_vendor_sms arg)
  | None => None
  end.

(** Running one of the two helpers to its end against an executor that
    says, for each activity, whether [execute_activity] returns or raises
    (after the runtime gave up retrying).  The helpers have no [try]; an
    exception of the awaited activity is the helper's own outcome. *)
Inductive Outcome : Set := Succeeded | Raised.

Definition run_helper (awaited : option Activity)
           (executor : Activity -> Outcome) : list Activity * Outcome :=
  match awaited with
  | None => ([], Succeeded)
  | Some a => ([a], executor a)
  end.

(* ------------------------------------------------------------------ *)
(** ** workflows/orders.py: the instance fields and the signal handlers *)

(** The fields set by [Orders.__init__] (lines 44-49). *)
Record Orders : Set := {
  order_state : OrderState.t;
  order_start_time : Z;
  is_new_state : bool;
  order_expiration_time : Z
}.

Definition set_order_state (s : OrderState.t) (self : Orders) : Orders :=
  {| order_state := s;
     order_start_time := order_start_time self;
     is_new_state := is_new_state self;
     order_expiration_time := order_expiration_time self |}.

Definition set_is_new_state (b : bool) (self : Orders) : Orders :=
  {| order_state := order_state self;
     order_start_time := order_start_time self;
     is_new_state := b;
     order_expiration_time := order_expiration_time self |}.

(** [timedelta(seconds=n)]. *)
Definition timedelta_seconds (n : Z) : Z := 1000000 * n.

Definition __init__ (arg : OrderWorkflowInput) (workflow_now : Z) : Orders :=
  {| order_state := OrderState.ORDER_PLACED;
     order_start_time := workflow_now;
     is_new_state := false;
     order_expiration_time := timedelta_seconds (expiration_time arg) |}.

(** Lines 195-255: the five signal handlers, each with its own constant. *)
Definition accept_order (self : Orders) : Orders :=
  if contains OrderState.ORDER_ACCEPTED (allowed_next_states (order_state self))
  then set_is_new_state true (set_order_state OrderState.ORDER_ACCEPTED self)
  else self.

Definition decline_order (self : Orders) : Orders :=
  if contains OrderState.ORDER_DECLINED (allowed_next_states (order_state self))
  then set_is_new_state true (set_order_state OrderState.ORDER_DECLINED self)
  else self.

Definition prepare_order (self : Orders) : Orders :=
  if contains OrderState.ORDER_PREPARATION (allowed_next_states (order_state self))
  then set_is_new_state true (set_order_state OrderState.ORDER_PREPARATION self)
  else self.

Definition ready_order (self : Orders) : Orders :=
  if contains OrderState.ORDER_READY (allowed_next_states (order_state self))
  then set_is_new_state true (set_order_state OrderState.ORDER_READY self)
  else self.

Definition pick_up_order (self : Orders) : Orders :=
  if contains OrderState.ORDER_PICKED_UP (allowed_next_states (order_state self))
  then set_is_new_state true (set_order_state OrderState.ORDER_PICKED_UP self)
  else self.

(** Line 257: the query. *)
Definition query_order_state (self : Orders) : OrderState.t := order_state self.

(** The signals a client can send, by handler name, and the runtime's
    dispatch of a signal to its handler. *)
Inductive SignalName : Set :=
| sig_accept_order
| sig_decline_order
| sig_prepare_order
| sig_ready_order
| sig_pick_up_order.

Definition handle_signal (s : SignalName) : Orders -> Orders :=
  match s with
  | sig_accept_order => accept_order
  | sig_decline_order => decline_order
  | sig_prepare_order => prepare_order
  | sig_ready_order => ready_order
  | sig_pick_up_order => pick_up_order
  end.

(** The state each handler asks for. *)
Definition target (s : SignalName) : OrderState.t :=
  match s with
  | sig_accept_order => OrderState.ORDER_ACCEPTED
  | sig_decline_order => OrderState.ORDER_DECLINED
  | sig_prepare_order => OrderState.ORDER_PREPARATION
  | sig_ready_order => OrderState.ORDER_READY
  | sig_pick_up_order => OrderState.ORDER_PICKED_UP
  end.

(** Replaying a sequence of signals, oldest first. *)
Definition replay (signals : list SignalName) (self : Orders) : Orders :=
  fold_left (fun acc s => handle_signal s acc) signals self.

(** The effect of one signal on the state alone. *)
Definition advance (state : OrderState.t) (s : SignalName) : OrderState.t :=
  if can_transition_to state (target s) then target s else state.

(** Lines 272-279: the [except asyncio.TimeoutError] branch of
    [_wait_with_expiration]. *)
Definition on_timeout (self : Orders) : Orders :=
  if contains OrderState.ORDER_DECLINED (allowed_next_states (order_state self))
  then set_order_state OrderState.ORDER_DECLINED self
  else set_order_state OrderState.ORDER_READY self.

(* ------------------------------------------------------------------ *)
(** ** workflows/orders.py: [Orders.run] as a machine over workflow tasks *)

(** What the coroutine asks of the runtime, in the order it asks. *)
Inductive Command : Set :=
| execute_activity (a : Activity)
| wait_condition (timeout : option Z).

(** The locals of [run] that are alive inside the loop. *)
Record Frame : Set := {
  order_details : OrderDetails;
  user_preference : UserPreference;
  remaining_expiration_time : Z
}.

Definition set_remaining (d : Z) (fr : Frame) : Frame :=
  {| order_details := order_details fr;
     user_preference := user_preference fr;
     remaining_expiration_time := d |}.

(** The points at which [run] is suspended, and its two ways of ending. *)
Inductive Pc : Set :=
| at_get_order_details                                   (* line 59 *)
| at_get_vendor_preference (od : OrderDetails)           (* line 67 *)
| at_notify_vendor (od : OrderDetails)                   (* line 75 *)
| at_get_user_preference (od : OrderDetails)             (* line 92 *)
| at_wait_with_expiration (fr : Frame)                   (* lines 102, 271 *)
| at_notify_user (fr : Frame)
                 (msg : UserNotificationMessageType.t)   (* lines 118-185 *)
| at_wait_picked_up (fr : Frame)                         (* line 177 *)
| returned (result : OrderState.t)                       (* lines 171, 193 *)
| failed.                                (* an awaited activity raised *)

Record Instance : Set := {
  self : Orders;
  arg : OrderWorkflowInput;
  pc : Pc;
  workflow_now : Z;              (* workflow.now() *)
  info_start_time : Z;           (* workflow.info().start_time *)
  commands : list Command
}.

Definition update_self (f : Orders -> Orders) (w : Instance) : Instance :=
  {| self := f (self w); arg := arg w; pc := pc w;
     workflow_now := workflow_now w; info_start_time := info_start_time w;
     commands := commands w |}.

Definition goto (p : Pc) (w : Instance) : Instance :=
  {| self := self w; arg := arg w; pc := p;
     workflow_now := workflow_now w; info_start_time := info_start_time w;
     commands := commands w |}.

Definition set_now (t : Z) (w : Instance) : Instance :=
  {| self := self w; arg := arg w; pc := pc w;
     workflow_now := t; info_start_time := info_start_time w;
     commands := commands w |}.

Definition issue (c : Command) (w : Instance) : Instance :=
  {| self := self w; arg := arg w; pc := pc w;
     workflow_now := workflow_now w; info_start_time := info_start_time w;
     commands := commands w ++ [c] |}.

(** What the runtime delivers in one workflow task. *)
Inductive ActivityResult : Set :=
| order_details_result (od : OrderDetails)
| vendor_preference_result (vp : VendorPreference)
| user_preference_result (up : UserPreference)
| none_result.

Inductive Event : Set :=
| signal (s : SignalName)
| activity_completed (r : ActivityResult)
| activity_failed
| timer_fired.

Record Task : Set := {
  task_time : Z;
  task_event : Event
}.

(** [await helper(...)] for [notify_user] and [notify_vendor]: suspend at
    [p] when the helper awaits an activity, go on with [k] when it returns
    without awaiting. *)
Definition await_helper (awaited : option Activity) (p : Pc)
           (k : Instance -> Instance) (w : Instance) : Instance :=
  match awaited with
  | Some a => goto p (issue (execute_activity a) w)
  | None => k w
  end.

Definition user_input (w : Instance) (fr : Frame)
           (msg : UserNotificationMessageType.t) : UserNotificationInput :=
  {| un_order_id := wi_order_id (arg w);
     un_user_id := od_user_id (order_details fr);
     un_message := msg;
     user_notification_preference :=
       Some (up_notification_preference (user_preference fr)) |}.

Definition vendor_input (w : Instance) (od : OrderDetails)
           (vp : VendorPreference) : VendorNotificationInput :=
  {| vn_order_id := wi_order_id (arg w);
     vn_vendor_id := od_vendor_id od;
     vn_message := VendorNotificationMessageType.NEW_ORDER;
     vendor_notification_preference := Some (vp_notification_preference vp) |}.

(** Lines 171 and 193: [return self.order_state]. *)
Definition return_order_state (w : Instance) : Instance :=
  goto (returned (order_state (self w))) w.

(** Lines 185-193. *)
Definition notify_completed (fr : Frame) (w : Instance) : Instance :=
  await_helper
    (notify_user (user_input w fr UserNotificationMessageType.ORDER_COMPLETED))
    (at_notify_user fr UserNotificationMessageType.ORDER_COMPLETED)
    return_order_state w.

(** Line 178: the predicate of the last wait. *)
Definition picked_up (w : Instance) : bool :=
  OrderState.eqb (order_state (self w)) OrderState.ORDER_PICKED_UP.

(** Lines 177-179: the wait without timeout; it does not suspend when
    the order is picked up already. *)
Definition wait_picked_up (fr : Frame) (w : Instance) : Instance :=
  let w := issue (wait_condition None) w in
  if picked_up w then notify_completed fr w else goto (at_wait_picked_up fr) w.

(** What follows each [await notify_user(...)] of [run].  After the
    ACCEPTED and BEING_PREPARED notifications the flag is cleared (line 173)
    and the loop calls [_wait_with_expiration] again with the remaining
    time it got from the previous call; the flag being false, that wait
    suspends.  After READY the loop is left (line 156); after CANCELED and
    COMPLETED the state is returned. *)
Definition after_notify_user (fr : Frame)
           (msg : UserNotificationMessageType.t) (w : Instance) : Instance :=
  match msg with
  | UserNotificationMessageType.ORDER_ACCEPTED
  | UserNotificationMessageType.ORDER_BEING_PREPARED =>
      let w := update_self (set_is_new_state false) w in
      goto (at_wait_with_expiration fr)
           (issue (wait_condition (Some (remaining_expiration_time fr))) w)
  | UserNotificationMessageType.ORDER_READY => wait_picked_up fr w
  | UserNotificationMessageType.ORDER_CANCELED
  | UserNotificationMessageType.ORDER_COMPLETED => return_order_state w
  end.

(** Lines 110-171: the [match self.order_state] of the loop. *)
Definition message_for (s : OrderState.t) : UserNotificationMessageType.t :=
  match s with
  | OrderState.ORDER_ACCEPTED => UserNotificationMessageType.ORDER_ACCEPTED
  | OrderState.ORDER_PREPARATION =>
      UserNotificationMessageType.ORDER_BEING_PREPARED
  | OrderState.ORDER_READY => UserNotificationMessageType.ORDER_READY
  | _ => UserNotificationMessageType.ORDER_CANCELED
  end.

Definition match_order_state (fr : Frame) (w : Instance) : Instance :=
  let msg := message_for (order_state (self w)) in
  await_helper (notify_user (user_input w fr msg))
               (at_notify_user fr msg) (after_notify_user fr msg) w.

(** Lines 286-290. *)
Definition remaining_now (w : Instance) : Z :=
  order_expiration_time (self w) - (workflow_now w - info_start_time w).

(** [_wait_with_expiration] from the end of its [wait_condition] on:
    the [except] branch when the wait timed out, the remaining time, and
    back in [run] the [match] on the state. *)
Definition resume_wait_with_expiration (timed_out : bool) (fr : Frame)
           (w : Instance) : Instance :=
  let w := if timed_out then update_self on_timeout w else w in
  match_order_state (set_remaining (remaining_now w) fr) w.

(** Lines 99-105, first iteration: the full expiration time is the
    timeout; the wait returns at once when a signal has set the flag
    before. *)
Definition enter_loop (od : OrderDetails) (up : UserPreference)
           (w : Instance) : Instance :=
  let fr := {| order_details := od; user_preference := up;
               remaining_expiration_time := order_expiration_time (self w) |} in
  let w := issue (wait_condition (Some (remaining_expiration_time fr))) w in
  if is_new_state (self w) then resume_wait_with_expiration false fr w
  else goto (at_wait_with_expiration fr) w.

(** Lines 84-97. *)
Definition after_notify_vendor (od : OrderDetails) (w : Instance) : Instance :=
  let w := update_self (set_order_state OrderState.VENDOR_NOTIFIED) w in
  goto (at_get_user_preference od)
       (issue (execute_activity (get_user_preference (wi_order_id (arg w)))) w).

Definition awaiting_activity (p : Pc) : bool :=
  match p with
  | at_get_order_details | at_get_vendor_preference _ | at_notify_vendor _
  | at_get_user_preference _ | at_notify_user _ _ => true
  | _ => false
  end.

Definition finished (p : Pc) : bool :=
  match p with
  | returned _ | failed => true
  | _ => false
  end.

(** A signal runs its handler first; then the wait the coroutine is
    suspended at, if any, is re-evaluated. *)
Definition on_signal (s : SignalName) (w : Instance) : Instance :=
  let w := update_self (handle_signal s) w in
  match pc w with
  | at_wait_with_expiration fr =>
      if is_new_state (self w) then resume_wait_with_expiration false fr w
      else w
  | at_wait_picked_up fr =>
      if picked_up w then notify_completed fr w else w
  | _ => w
  end.

(** The pending activity returned [r]. *)
Definition on_activity_completed (r : ActivityResult) (w : Instance)
  : option Instance :=
  match pc w, r with
  | at_get_order_details, order_details_result od =>
      Some (goto (at_get_vendor_preference od)
              (issue (execute_activity
                        (get_vendor_preference (wi_order_id (arg w)))) w))
  | at_get_vendor_preference od, vendor_preference_result vp =>
      Some (await_helper (notify_vendor (vendor_input w od vp))
                         (at_notify_vendor od) (after_notify_vendor od) w)
  | at_notify_vendor od, none_result => Some (after_notify_vendor od w)
  | at_get_user_preference od, user_preference_result up =>
      Some (enter_loop od up w)
  | at_notify_user fr msg, none_result => Some (after_notify_user fr msg w)
  | _, _ => None
  end.

(** One workflow task.  [None]: the task cannot occur at this point of the
    run (a result of the wrong kind, a timer that was never started).  A
    finished run executes no more code. *)
Definition step (w : Instance) (t : Task) : option Instance :=
  if finished (pc w) then Some w
  else
    let w := set_now (task_time t) w in
    match task_event t with
    | signal s => Some (on_signal s w)
    | activity_completed r => on_activity_completed r w
    | activity_failed =>
        if awaiting_activity (pc w) then Some (goto failed w) else None
    | timer_fired =>
        match pc w with
        | at_wait_with_expiration fr =>
            Some (resume_wait_with_expiration true fr w)
        | _ => None
        end
    end.

Fixpoint run (w : Instance) (history : list Task) : option Instance :=
  match history with
  | [] => Some w
  | t :: rest =>
      match step w t with
      | Some w' => run w' rest
      | None => None
      end
  end.

(** Lines 44-64: the instance is created and [run] reaches its first
    [await]. *)
Definition start (a : OrderWorkflowInput) (start_time now : Z) : Instance :=
  {| self := __init__ a now;
     arg := a;
     pc := at_get_order_details;
     workflow_now := now;
     info_start_time := start_time;
     commands := [execute_activity (get_order_details (wi_order_id a))] |}.

(** Observations on the commands of a run. *)
Definition user_message_of (c : Command) : list UserNotificationMessageType.t :=
  match c with
  | execute_activity (notify_user_sms a)
  | execute_activity (notify_user_push a) => [un_message a]
  | _ => []
  end.

Definition user_notifications (cs : list Command)
  : list UserNotificationMessageType.t :=
  flat_map user_message_of cs.

Definition wait_of (c : Command) : list (option Z) :=
  match c with
  | wait_condition timeout => [timeout]
  | _ => []
  end.

Definition waits (cs : list Command) : list (option Z) := flat_map wait_of cs.

Definition is_signal (t : Task) : bool :=
  match task_event t with
  | signal _ => true
  | _ => false
  end.

Definition is_failure (t : Task) : bool :=
  match task_event t with
  | activity_failed => true
  | _ => false
  end.

Definition at_time (t : Z) (e : Event) : Task :=
  {| task_time := t; task_event := e |}.

(* ------------------------------------------------------------------ *)
(** ** Histories *)


Definition signals_of (history : list Task) : list SignalName :=
  flat_map (fun t => match task_event t with
                     | signal s => [s]
                     | _ => []
                     end) history.

(** Whether some signal of the history comes after a fired timer. *)
Fixpoint signal_after_timer (history : list Task) : bool :=
  match history with
  | [] => false
  | t :: rest =>
      match task_event t with
      | timer_fired => existsb is_signal rest || signal_after_timer rest
      | _ => signal_after_timer rest
      end
  end.




(** Concrete data for the sample runs (the runner places the order
    [dummy-order-id] with an expiration of 30 seconds). *)
Definition sample_input : OrderWorkflowInput :=
  {| wi_order_id := "dummy-order-id"; expiration_time := 30 |}.

Definition sample_details : OrderDetails :=
  {| od_order_id := "dummy-order-id"; od_user_id := "user-1";
     od_vendor_id := "vendor-1"; order_date := 0 |}.

Definition sample_vendor : VendorPreference :=
  {| vp_vendor_id := "vendor-1";
     vp_notification_preference := NotificationChannelType.SMS |}.

Definition sample_user : UserPreference :=
  {| up_user_id := "user-1";
     up_notification_preference := NotificationChannelType.PUSH |}.

Definition setup_history : list Task :=
  [ at_time 100 (activity_completed (order_details_result sample_details));
    at_time 200 (activity_completed (vendor_preference_result sample_vendor));
    at_time 800 (activity_completed none_result);
    at_time 900 (activity_completed (user_preference_result sample_user)) ].

(** The vendor accepts after five seconds and the user is told. *)
Definition accepted_history : list Task :=
  setup_history ++
  [ at_time 5000000 (signal sig_accept_order);
    at_time 5600000 (activity_completed none_result) ].



(** The vendor sends [prepare_order] while the ORDER_ACCEPTED notification
    is still being delivered. *)
Definition hasty_history : list Task :=
  setup_history ++
  [ at_time 5000000 (signal sig_accept_order);
    at_time 5100000 (signal sig_prepare_order);
    at_time 5600000 (activity_completed none_result);
    at_time 9000000 (signal sig_ready_order);
    at_time 9600000 (activity_completed none_result);
    at_time 12000000 (signal sig_pick_up_order);
    at_time 12600000 (activity_completed none_result) ].

(** The instance reached by [accepted_history]: accepted, waiting again. *)
Definition accepted_frame : Frame :=
  {| order_details := sample_details;
     user_preference := sample_user;
     remaining_expiration_time := 25000000 |}.

Definition accepted_instance : Instance :=
  {| self := {| order_state := OrderState.ORDER_ACCEPTED;
                order_start_time := 0;
                is_new_state := false;
                order_expiration_time := 30000000 |};
     arg := sample_input;
     pc := at_wait_with_expiration accepted_frame;
     workflow_now := 5600000;
     info_start_time := 0;
     commands := match run (start sample_input 0 0) accepted_history with
                 | Some w => commands w
                 | None => []
                 end |}.

(** The vendor has accepted and the ORDER_ACCEPTED notification is being
    delivered. *)
Definition notifying_history : list Task :=
  setup_history ++ [ at_time 5000000 (signal sig_accept_order) ].

Definition notifying_instance : Instance :=
  Eval vm_compute in
    match run (start sample_input 0 0) notifying_history with
    | Some w => w
    | None => start sample_input 0 0
    end.


(* ------------------------------------------------------------------ *)
(** ** A run without signals, task by task *)







Definition no_failure (history : list Task) : bool :=
  forallb (fun t => negb (is_failure t)) history.

(** The scenario of the complete order as a statement on histories: the
    four signals arrive in order, none after a fired timer, no activity
    fails; then a run that returns has told the user everything and returns
    ORDER_PICKED_UP. *)
Definition served_in_order (history : list Task) : Prop :=
  signals_of history =
    [sig_accept_order; sig_prepare_order; sig_ready_order; sig_pick_up_order] /\
  signal_after_timer history = false /\
  no_failure history = true.


(* ------------------------------------------------------------------ *)
(** ** schemas/order.py: descriptions, and the table as a graph *)

(** order.py, lines 62-71. *)
Definition _STATE_DESCRIPTIONS : list (OrderState.t * string) :=
  [ (OrderState.ORDER_PLACED, "Order has been placed by the customer");
    (OrderState.VENDOR_NOTIFIED,
       "Restaurant has been notified of the new order");
    (OrderState.ORDER_ACCEPTED, "Restaurant has accepted the order");
    (OrderState.ORDER_DECLINED, "Restaurant has declined the order");
    (OrderState.ORDER_PREPARATION,
       "Order is being prepared by the restaurant");
    (OrderState.ORDER_READY, "Order is ready for pickup");
    (OrderState.ORDER_PICKED_UP, "Order has been picked up to the customer") ]%string.

(** order.py, lines 25-28. *)
Definition description (self : OrderState.t) : string :=
  dict_get _STATE_DESCRIPTIONS self "Unknown state"%string.

(** The keys of a dict literal, in the order they are written. *)
Definition keys {V : Type} (d : list (OrderState.t * V)) : list OrderState.t :=
  map fst d.

(** One or more transitions of [_STATE_TRANSITIONS] in a row. *)
Inductive transitions : OrderState.t -> OrderState.t -> Prop :=
| transitions_one (s t : OrderState.t) :
    can_transition_to s t = true -> transitions s t
| transitions_more (s t u : OrderState.t) :
    can_transition_to s t = true -> transitions t u -> transitions s u.

(** How far an order is in its lifecycle. *)
Definition stage (s : OrderState.t) : nat :=
  match s with
  | OrderState.ORDER_PLACED => 0
  | OrderState.VENDOR_NOTIFIED => 1
  | OrderState.ORDER_ACCEPTED => 2
  | OrderState.ORDER_PREPARATION => 3
  | OrderState.ORDER_READY => 4
  | OrderState.ORDER_PICKED_UP => 5
  | OrderState.ORDER_DECLINED => 5
  end%nat.

(** The vendor has accepted the order (and may have gone further). *)
Definition accepted (s : OrderState.t) : bool :=
  contains s [OrderState.ORDER_ACCEPTED; OrderState.ORDER_PREPARATION;
              OrderState.ORDER_READY; OrderState.ORDER_PICKED_UP].

(** The lifecycle order of the user notifications: ORDER_ACCEPTED, then
    ORDER_BEING_PREPARED, then either ORDER_READY and ORDER_COMPLETED, or
    ORDER_CANCELED. *)
Definition precedes (m1 m2 : UserNotificationMessageType.t) : bool :=
  match m1, m2 with
  | UserNotificationMessageType.ORDER_ACCEPTED,
    UserNotificationMessageType.ORDER_ACCEPTED => false
  | UserNotificationMessageType.ORDER_ACCEPTED, _ => true
  | UserNotificationMessageType.ORDER_BEING_PREPARED,
    (UserNotificationMessageType.ORDER_READY
    | UserNotificationMessageType.ORDER_CANCELED
    | UserNotificationMessageType.ORDER_COMPLETED) => true
  | UserNotificationMessageType.ORDER_READY,
    UserNotificationMessageType.ORDER_COMPLETED => true
  | _, _ => false
  end.

(** Two numberings of the notifications that together give [precedes]:
    in the first ORDER_CANCELED stands with ORDER_READY, in the second with
    ORDER_COMPLETED. *)
Definition notification_rank (m : UserNotificationMessageType.t) : nat :=
  match m with
  | UserNotificationMessageType.ORDER_ACCEPTED => 2
  | UserNotificationMessageType.ORDER_BEING_PREPARED => 3
  | UserNotificationMessageType.ORDER_READY => 4
  | UserNotificationMessageType.ORDER_CANCELED => 4
  | UserNotificationMessageType.ORDER_COMPLETED => 5
  end%nat.

Definition notification_rank' (m : UserNotificationMessageType.t) : nat :=
  match m with
  | UserNotificationMessageType.ORDER_CANCELED => 5
  | _ => notification_rank m
  end%nat.

(** Strictly increasing, and above [lo]. *)
Fixpoint increasing_from (lo : nat) (l : list nat) : bool :=
  match l with
  | [] => true
  | x :: rest => (lo <? x)%nat && increasing_from x rest
  end.

Fixpoint last_from (lo : nat) (l : list nat) : nat :=
  match l with
  | [] => lo
  | x :: rest => last_from x rest
  end.

Definition notification_ranks (w : Instance) : list nat :=
  map notification_rank (user_notifications (commands w)).

Definition notification_ranks' (w : Instance) : list nat :=
  map notification_rank' (user_notifications (commands w)).

(** The notifications sent to the vendor. *)
Definition vendor_message_of (c : Command)
  : list VendorNotificationMessageType.t :=
  match c with
  | execute_activity (notify_vendor_sms a)
  | execute_activity (notify_vendor_push a) => [vn_message a]
  | _ => []
  end.

Definition vendor_notifications (cs : list Command)
  : list VendorNotificationMessageType.t :=
  flat_map vendor_message_of cs.

(** What holds of the order state while the notification [m] is being
    delivered. *)
Definition state_while_notifying (m : UserNotificationMessageType.t)
           (s : OrderState.t) : Prop :=
  match m with
  | UserNotificationMessageType.ORDER_ACCEPTED => accepted s = true
  | UserNotificationMessageType.ORDER_BEING_PREPARED =>
      accepted s = true /\ (3 <= stage s)%nat
  | UserNotificationMessageType.ORDER_READY =>
      s = OrderState.ORDER_READY \/ s = OrderState.ORDER_PICKED_UP
  | UserNotificationMessageType.ORDER_CANCELED => is_terminal_state s = true
  | UserNotificationMessageType.ORDER_COMPLETED =>
      s = OrderState.ORDER_PICKED_UP
  end.

(** What holds at each point of a run of the order [a]. *)
Definition run_invariant (a : OrderWorkflowInput) (w : Instance) : Prop :=
  let s := order_state (self w) in
  let full := timedelta_seconds (expiration_time a) in
  order_expiration_time (self w) = full /\
  increasing_from 0 (notification_ranks w) = true /\
  increasing_from 0 (notification_ranks' w) = true /\
  (waits (commands w) = [] \/
   exists rest, waits (commands w) = Some full :: rest) /\
  (s = OrderState.ORDER_PLACED ->
   notification_ranks w = [] /\ waits (commands w) = []) /\
  (List.length (vendor_notifications (commands w)) <= 1)%nat /\
  (s <> OrderState.ORDER_PLACED ->
   vendor_notifications (commands w) =
     [VendorNotificationMessageType.NEW_ORDER]) /\
  match pc w with
  | at_get_order_details | at_get_vendor_preference _ =>
      s = OrderState.ORDER_PLACED /\ is_new_state (self w) = false /\
      vendor_notifications (commands w) = []
  | at_notify_vendor _ =>
      s = OrderState.ORDER_PLACED /\ is_new_state (self w) = false /\
      vendor_notifications (commands w) =
        [VendorNotificationMessageType.NEW_ORDER]
  | at_get_user_preference _ =>
      notification_ranks w = [] /\ waits (commands w) = [] /\
      s <> OrderState.ORDER_PLACED /\
      (is_new_state (self w) = false -> s = OrderState.VENDOR_NOTIFIED) /\
      (is_new_state (self w) = true -> s <> OrderState.VENDOR_NOTIFIED)
  | at_wait_with_expiration _ =>
      waits (commands w) <> [] /\
      is_new_state (self w) = false /\
      (s = OrderState.VENDOR_NOTIFIED \/ accepted s = true) /\
      (last_from 0 (notification_ranks w) <= Nat.min 3 (stage s))%nat /\
      (last_from 0 (notification_ranks' w) <= Nat.min 3 (stage s))%nat
  | at_notify_user _ m =>
      waits (commands w) <> [] /\
      last_from 0 (notification_ranks w) = notification_rank m /\
      last_from 0 (notification_ranks' w) = notification_rank' m /\
      state_while_notifying m s
  | at_wait_picked_up _ =>
      waits (commands w) <> [] /\
      s = OrderState.ORDER_READY /\
      last_from 0 (notification_ranks w) = 4%nat /\
      last_from 0 (notification_ranks' w) = 4%nat
  | returned r => r = s /\ is_terminal_state s = true
  | failed => True
  end.

(** The points of [run] after which no wait with expiration follows. *)
Definition past_the_loop (p : Pc) : bool :=
  match p with
  | at_notify_user _ UserNotificationMessageType.ORDER_READY
  | at_notify_user _ UserNotificationMessageType.ORDER_CANCELED
  | at_notify_user _ UserNotificationMessageType.ORDER_COMPLETED
  | at_wait_picked_up _
  | returned _
  | failed => true
  | _ => false
  end.

(** The instance reached by [hasty_history]. *)
Definition picked_up_instance : Instance :=
  Eval vm_compute in
    match run (start sample_input 0 0) hasty_history with
    | Some w => w
    | None => start sample_input 0 0
    end.



(** [ready_order] arrives while ORDER_BEING_PREPARED is being delivered:
    the order is ready and [run] waits again. *)
Definition unannounced_history : list Task :=
  setup_history ++
  [ at_time 5000000 (signal sig_accept_order);
    at_time 5600000 (activity_completed none_result);
    at_time 7000000 (signal sig_prepare_order);
    at_time 7100000 (signal sig_ready_order);
    at_time 7600000 (activity_completed none_result) ].

Definition unannounced_instance : Instance :=
  Eval vm_compute in
    match run (start sample_input 0 0) unannounced_history with
    | Some w => w
    | None => start sample_input 0 0
    end.

(** Where a run can be after the timer has fired, [W] being the waits
    issued before: a wait without timeout may have been added, none with a
    timeout. *)
Definition after_timeout (W : list (option Z)) (w : Instance) : Prop :=
  match pc w with
  | at_notify_user _ UserNotificationMessageType.ORDER_READY
  | at_notify_user _ UserNotificationMessageType.ORDER_CANCELED =>
      waits (commands w) = W
  | at_notify_user _ UserNotificationMessageType.ORDER_COMPLETED
  | at_wait_picked_up _ =>
      waits (commands w) = W ++ [None]
  | returned _ | failed =>
      waits (commands w) = W \/ waits (commands w) = W ++ [None]
  | _ => False
  end.

(** The fetches a run has executed, and the inputs of the notifications
    it has sent to the user. *)
Definition fetch_of (c : Command) : list Activity :=
  match c with
  | execute_activity (get_order_details x) => [get_order_details x]
  | execute_activity (get_vendor_preference x) => [get_vendor_preference x]
  | execute_activity (get_user_preference x) => [get_user_preference x]
  | _ => []
  end.

Definition fetches (cs : list Command) : list Activity := flat_map fetch_of cs.

Definition user_input_of (c : Command) : list UserNotificationInput :=
  match c with
  | execute_activity (notify_user_sms a)
  | execute_activity (notify_user_push a) => [a]
  | _ => []
  end.

Definition user_notification_inputs (cs : list Command)
  : list UserNotificationInput :=
  flat_map user_input_of cs.

(** Lines 59-97 of the workflow: the three fetches, in the order of [run],
    all called with the order id. *)
Definition all_fetches (a : OrderWorkflowInput) : list Activity :=
  [ get_order_details (wi_order_id a);
    get_vendor_preference (wi_order_id a);
    get_user_preference (wi_order_id a) ].

Definition sent_to (a : OrderWorkflowInput) (user_id : string)
           (preference : NotificationChannelType.t)
           (i : UserNotificationInput) : Prop :=
  un_order_id i = wi_order_id a /\
  un_user_id i = user_id /\
  user_notification_preference i = Some preference.

Definition sent_by_frame (a : OrderWorkflowInput) (fr : Frame)
           (cs : list Command) : Prop :=
  Forall (sent_to a (od_user_id (order_details fr))
                  (up_notification_preference (user_preference fr)))
         (user_notification_inputs cs).

(** What holds of the fetches and of the recipients at each point of a
    run of the order [a]. *)
Definition dispatch_invariant (a : OrderWorkflowInput) (w : Instance) : Prop :=
  arg w = a /\
  match pc w with
  | at_get_order_details =>
      fetches (commands w) = firstn 1 (all_fetches a) /\
      user_notification_inputs (commands w) = []
  | at_get_vendor_preference _ | at_notify_vendor _ =>
      fetches (commands w) = firstn 2 (all_fetches a) /\
      user_notification_inputs (commands w) = []
  | at_get_user_preference _ =>
      fetches (commands w) = all_fetches a /\
      user_notification_inputs (commands w) = []
  | at_wait_with_expiration fr | at_notify_user fr _ | at_wait_picked_up fr =>
      fetches (commands w) = all_fetches a /\
      sent_by_frame a fr (commands w)
  | returned _ | failed =>
      (exists n, fetches (commands w) = firstn n (all_fetches a)) /\
      exists user_id preference,
        Forall (sent_to a user_id preference)
               (user_notification_inputs (commands w))
  end.

(* ================================================================== *)
(** * Properties *)

(* ------------------------------------------------------------------ *)
(** ** The transition table *)

Lemma eqb_spec (a b : OrderState.t) : reflect (a = b) (OrderState.eqb a b).
Proof. destruct a, b; simpl; constructor; congruence. Qed.

Lemma contains_In (x : OrderState.t) (xs : list OrderState.t) :
  contains x xs = true <-> In x xs.
Proof.
  induction xs as [|y ys IH]; simpl.
  - split; [discriminate | tauto].
  - destruct (eqb_spec y x) as [->|Hne].
    + tauto.
    + rewrite IH. split; [tauto | intros [H|H]; [contradiction | exact H]].
Qed.

Lemma contains_false (x : OrderState.t) (xs : list OrderState.t) :
  contains x xs = false <-> ~ In x xs.
Proof.
  rewrite <- contains_In. destruct (contains x xs); split; congruence.
Qed.

(** No state is its own successor in [_STATE_TRANSITIONS]. *)
Lemma no_self_successor (s : OrderState.t) :
  contains s (allowed_next_states s) = false.
Proof. now destruct s. Qed.

(** A successor is a different state. *)
Lemma successor_differs (s t : OrderState.t) :
  contains t (allowed_next_states s) = true -> t <> s.
Proof.
  intros H ->. rewrite no_self_successor in H. discriminate.
Qed.

(* ------------------------------------------------------------------ *)
(** ** The signal handlers *)

(** All five handlers are one guarded assignment, each to its own target. *)
Lemma handle_signal_eq (s : SignalName) (self : Orders) :
  handle_signal s self =
  if contains (target s) (allowed_next_states (order_state self))
  then set_is_new_state true (set_order_state (target s) self)
  else self.
Proof. now destruct s. Qed.

Lemma handle_signal_order_state (s : SignalName) (self : Orders) :
  order_state (handle_signal s self) =
  if can_transition_to (order_state self) (target s)
  then target s else order_state self.
Proof.
  rewrite handle_signal_eq. unfold can_transition_to.
  now destruct (contains _ _).
Qed.

(** The state after a signal is the old one or one of its successors. *)
Lemma handle_signal_follows_table (s : SignalName) (self : Orders) :
  order_state (handle_signal s self) = order_state self \/
  In (order_state (handle_signal s self))
     (allowed_next_states (order_state self)).
Proof.
  rewrite handle_signal_order_state. unfold can_transition_to.
  destruct (contains _ _) eqn:E; [right | left; reflexivity].
  now apply contains_In.
Qed.

(** C1.  For every state S and each of the five signals, with target T:
    when T is in [S.allowed_next_states] the handler sets [order_state]
    to T and [is_new_state] to true (and touches nothing else); when it is
    not, the handler returns the instance as it was.  Hence the state
    changes iff T is an allowed successor.  A handler is a total function
    on the instance fields: there is no outcome in which it raises. *)
Theorem signal_applied_iff_allowed (s : SignalName) (self : Orders) :
  let S := order_state self in
  let T := target s in
  (In T (allowed_next_states S) ->
     handle_signal s self = set_is_new_state true (set_order_state T self) /\
     order_state (handle_signal s self) = T /\
     is_new_state (handle_signal s self) = true) /\
  (~ In T (allowed_next_states S) -> handle_signal s self = self) /\
  (order_state (handle_signal s self) <> S <-> In T (allowed_next_states S)).
Proof.
  cbv zeta. rewrite handle_signal_eq.
  destruct (contains (target s) (allowed_next_states (order_state self))) eqn:E.
  - pose proof (proj1 (contains_In _ _) E) as HIn.
    split; [|split].
    + intros _. repeat split.
    + intros Hn. contradiction.
    + split; [intros _; exact HIn | intros _].
      simpl. now apply successor_differs.
  - pose proof (proj1 (contains_false _ _) E) as HnIn.
    split; [|split].
    + intros HIn. contradiction.
    + reflexivity.
    + split; [intros Hc; now contradiction Hc | intros HIn; contradiction].
Qed.

Lemma replay_order_state (signals : list SignalName) (o : Orders) :
  order_state (replay signals o) = fold_left advance signals (order_state o).
Proof.
  unfold replay. revert o.
  induction signals as [|s rest IH]; intros o; simpl.
  - reflexivity.
  - rewrite IH, handle_signal_order_state. reflexivity.
Qed.

(** C7.  Two instances that start in the same [order_state] end in the same
    [order_state] after the same sequence of signals, whatever their other
    fields (flag, start time, expiration) are: the final state is the
    function [fold_left advance] of the initial state and the signal
    sequence alone. *)
Theorem replay_deterministic (signals : list SignalName) (a b : Orders) :
  order_state a = order_state b ->
  order_state (replay signals a) = order_state (replay signals b) /\
  order_state (replay signals a) = fold_left advance signals (order_state a).
Proof.
  intros Hab. rewrite !replay_order_state, Hab. split; reflexivity.
Qed.

Lemma replay_deterministic_witness :
  order_state
    (replay [sig_accept_order; sig_ready_order; sig_prepare_order]
       {| order_state := OrderState.VENDOR_NOTIFIED; order_start_time := 0;
          is_new_state := false; order_expiration_time := 60000000 |}) =
  order_state
    (replay [sig_accept_order; sig_ready_order; sig_prepare_order]
       {| order_state := OrderState.VENDOR_NOTIFIED; order_start_time := 17;
          is_new_state := true; order_expiration_time := 30000000 |}).
Proof.
  apply (replay_deterministic
           [sig_accept_order; sig_ready_order; sig_prepare_order]).
  reflexivity.
Defined.

(** C10.  Every handler is idempotent: since no state is among its own
    allowed successors, a second call right after the first finds nothing
    to do, so the instance (state and flag) is the one the first call left. *)
Theorem handle_signal_idempotent (s : SignalName) (self : Orders) :
  (forall st, ~ In st (allowed_next_states st)) /\
  handle_signal s (handle_signal s self) = handle_signal s self /\
  order_state (handle_signal s (handle_signal s self)) =
  order_state (handle_signal s self).
Proof.
  split; [intros st; apply contains_false, no_self_successor|].
  assert (H : handle_signal s (handle_signal s self) = handle_signal s self).
  { rewrite (handle_signal_eq s self).
    destruct (contains _ _) eqn:E.
    - rewrite handle_signal_eq. simpl. now rewrite no_self_successor.
    - rewrite handle_signal_eq, E. reflexivity. }
  split; [exact H | now rewrite H].
Qed.

(* ------------------------------------------------------------------ *)
(** ** The notification helpers *)

(** C9.  With the preference left at its default [None], [notify_user] and
    [notify_vendor] await no activity: whatever the executor would do, no
    activity is executed and the helper returns normally. *)
Theorem no_preference_no_notification
        (ua : UserNotificationInput) (va : VendorNotificationInput)
        (executor : Activity -> Outcome) :
  user_notification_preference ua = None ->
  vendor_notification_preference va = None ->
  notify_user ua = None /\ notify_vendor va = None /\
  run_helper (notify_user ua) executor = ([], Succeeded) /\
  run_helper (notify_vendor va) executor = ([], Succeeded).
Proof.
  intros Hu Hv. unfold notify_user, notify_vendor. rewrite Hu, Hv.
  repeat split.
Qed.

Lemma no_preference_no_notification_witness :
  let ua := {| un_order_id := "o-1"; un_user_id := "u-1";
               un_message := UserNotificationMessageType.ORDER_ACCEPTED;
               user_notification_preference := None |} in
  let va := {| vn_order_id := "o-1"; vn_vendor_id := "v-1";
               vn_message := VendorNotificationMessageType.NEW_ORDER;
               vendor_notification_preference := None |} in
  notify_user ua = None /\ notify_vendor va = None /\
  run_helper (notify_user ua) (fun _ => Raised) = ([], Succeeded) /\
  run_helper (notify_vendor va) (fun _ => Raised) = ([], Succeeded).
Proof.
  cbv zeta.
  apply (no_preference_no_notification
           {| un_order_id := "o-1"; un_user_id := "u-1";
              un_message := UserNotificationMessageType.ORDER_ACCEPTED;
              user_notification_preference := None |}
           {| vn_order_id := "o-1"; vn_vendor_id := "v-1";
              vn_message := VendorNotificationMessageType.NEW_ORDER;
              vendor_notification_preference := None |}
           (fun _ => Raised)); reflexivity.
Defined.

(* ------------------------------------------------------------------ *)
(** ** The orchestration: structure of one resumption *)

(** Inside [run] the preference comes from a [UserPreference], so
    [notify_user] always awaits one activity, carrying the message. *)
Lemma notify_user_in_run (w : Instance) (fr : Frame)
      (msg : UserNotificationMessageType.t) :
  exists act, notify_user (user_input w fr msg) = Some act /\
              user_message_of (execute_activity act) = [msg].
Proof.
  unfold notify_user, user_input; simpl.
  destruct (up_notification_preference (user_preference fr));
    eexists; split; reflexivity.
Qed.

Lemma match_order_state_spec (fr : Frame) (w : Instance) :
  exists act,
    match_order_state fr w =
    goto (at_notify_user fr (message_for (order_state (self w))))
         (issue (execute_activity act) w) /\
    user_message_of (execute_activity act) =
    [message_for (order_state (self w))].
Proof.
  unfold match_order_state.
  destruct (notify_user_in_run w fr (message_for (order_state (self w))))
    as (act & Hact & Hmsg).
  exists act. rewrite Hact. split; [reflexivity | exact Hmsg].
Qed.

Lemma resume_spec (timed_out : bool) (fr : Frame) (w : Instance) :
  let w0 := if timed_out then update_self on_timeout w else w in
  exists act,
    resume_wait_with_expiration timed_out fr w =
    goto (at_notify_user (set_remaining (remaining_now w0) fr)
                         (message_for (order_state (self w0))))
         (issue (execute_activity act) w0) /\
    user_message_of (execute_activity act) =
    [message_for (order_state (self w0))].
Proof.
  cbv zeta. unfold resume_wait_with_expiration.
  apply match_order_state_spec.
Qed.

Lemma self_resume (timed_out : bool) (fr : Frame) (w : Instance) :
  self (resume_wait_with_expiration timed_out fr w) =
  if timed_out then on_timeout (self w) else self w.
Proof.
  destruct (resume_spec timed_out fr w) as (act & -> & _).
  now destruct timed_out.
Qed.

Lemma on_timeout_order_state (o : Orders) :
  order_state (on_timeout o) =
  if can_transition_to (order_state o) OrderState.ORDER_DECLINED
  then OrderState.ORDER_DECLINED else OrderState.ORDER_READY.
Proof.
  unfold on_timeout, can_transition_to. now destruct (contains _ _).
Qed.

Lemma on_timeout_flag (o : Orders) :
  is_new_state (on_timeout o) = is_new_state o.
Proof. unfold on_timeout. now destruct (contains _ _). Qed.

Lemma step_unfinished (w : Instance) (t : Task) :
  finished (pc w) = false ->
  step w t =
  match task_event t with
  | signal s => Some (on_signal s (set_now (task_time t) w))
  | activity_completed r => on_activity_completed r (set_now (task_time t) w)
  | activity_failed =>
      if awaiting_activity (pc w)
      then Some (goto failed (set_now (task_time t) w)) else None
  | timer_fired =>
      match pc w with
      | at_wait_with_expiration fr =>
          Some (resume_wait_with_expiration true fr (set_now (task_time t) w))
      | _ => None
      end
  end.
Proof. intros H. unfold step. rewrite H. reflexivity. Qed.

Lemma run_finished (w : Instance) (history : list Task) :
  finished (pc w) = true -> run w history = Some w.
Proof.
  intros H. induction history as [|t rest IH]; simpl; [reflexivity|].
  unfold step. rewrite H. exact IH.
Qed.

(* ------------------------------------------------------------------ *)
(** ** Expiration *)

(** C2.  When the wait of [_wait_with_expiration] times out, the state
    becomes ORDER_DECLINED if that is an allowed successor of the current
    state and ORDER_READY otherwise, and the flag is left as it was.  So a
    timeout in VENDOR_NOTIFIED gives ORDER_DECLINED, one in ORDER_ACCEPTED or
    ORDER_PREPARATION gives ORDER_READY. *)
Theorem timeout_declines_or_readies (w : Instance) (fr : Frame) (t : Z) :
  pc w = at_wait_with_expiration fr ->
  exists w',
    step w (at_time t timer_fired) = Some w' /\
    self w' = on_timeout (self w) /\
    order_state (self w') =
      (if contains OrderState.ORDER_DECLINED
            (allowed_next_states (order_state (self w)))
       then OrderState.ORDER_DECLINED else OrderState.ORDER_READY) /\
    is_new_state (self w') = is_new_state (self w) /\
    (order_state (self w) = OrderState.VENDOR_NOTIFIED ->
     order_state (self w') = OrderState.ORDER_DECLINED) /\
    (order_state (self w) = OrderState.ORDER_ACCEPTED \/
     order_state (self w) = OrderState.ORDER_PREPARATION ->
     order_state (self w') = OrderState.ORDER_READY).
Proof.
  intros Hpc.
  eexists. split.
  { rewrite step_unfinished by now rewrite Hpc.
    simpl. rewrite Hpc. reflexivity. }
  rewrite self_resume. simpl.
  split; [reflexivity|].
  rewrite on_timeout_order_state, on_timeout_flag. unfold can_transition_to.
  split; [reflexivity|]. split; [reflexivity|].
  split.
  - intros ->. reflexivity.
  - intros [-> | ->]; reflexivity.
Qed.

Lemma accepted_history_run :
  run (start sample_input 0 0) accepted_history = Some accepted_instance.
Proof. vm_compute. reflexivity. Qed.

Lemma timeout_declines_or_readies_witness :
  exists w',
    step accepted_instance (at_time 30000900 timer_fired) = Some w' /\
    order_state (self w') = OrderState.ORDER_READY.
Proof.
  destruct (timeout_declines_or_readies accepted_instance accepted_frame
              30000900 eq_refl)
    as (w' & Hstep & _ & _ & _ & _ & Hready).
  exists w'. split; [exact Hstep|].
  apply Hready. left. reflexivity.
Defined.

(** C3.  The expiration path does not follow [_STATE_TRANSITIONS].  Every
    signal handler leaves the state unchanged or moves it along an entry of
    the table; the only allowed successor of ORDER_ACCEPTED is
    ORDER_PREPARATION; yet a timeout in ORDER_ACCEPTED assigns ORDER_READY.
    Such a timeout occurs in a run: after [accepted_history] the order is
    ORDER_ACCEPTED, [run] waits, and the timer fires. *)
Theorem expiration_ignores_transition_table :
  (forall (s : SignalName) (o : Orders),
      order_state (handle_signal s o) = order_state o \/
      In (order_state (handle_signal s o))
         (allowed_next_states (order_state o))) /\
  allowed_next_states OrderState.ORDER_ACCEPTED =
    [OrderState.ORDER_PREPARATION] /\
  ~ In OrderState.ORDER_READY (allowed_next_states OrderState.ORDER_ACCEPTED) /\
  (forall o : Orders,
      order_state o = OrderState.ORDER_ACCEPTED ->
      order_state (on_timeout o) = OrderState.ORDER_READY) /\
  (exists w w',
      run (start sample_input 0 0) accepted_history = Some w /\
      order_state (self w) = OrderState.ORDER_ACCEPTED /\
      step w (at_time 30000900 timer_fired) = Some w' /\
      order_state (self w') = OrderState.ORDER_READY /\
      order_state (self w') <> order_state (self w) /\
      ~ In (order_state (self w'))
           (allowed_next_states (order_state (self w)))).
Proof.
  split; [exact handle_signal_follows_table|].
  split; [reflexivity|].
  split; [apply contains_false; reflexivity|].
  split.
  - intros o Ho. rewrite on_timeout_order_state, Ho. reflexivity.
  - exists accepted_instance. eexists.
    split; [exact accepted_history_run|].
    split; [reflexivity|].
    split; [vm_compute; reflexivity|].
    split; [reflexivity|].
    split; [discriminate|].
    apply contains_false. reflexivity.
Qed.

(* ------------------------------------------------------------------ *)
(** ** Failure of an activity *)

(** C8.  When the activity [run] is awaiting fails for good (a fetch or a
    notification), the run ends as failed: the instance fields, so the
    order state, are those of the moment before (no expiration fallback, no
    transition), nothing is asked of the runtime any more, and whatever is
    delivered afterwards changes nothing: no further notification. *)
Theorem activity_failure_aborts (w : Instance) (t : Z) :
  awaiting_activity (pc w) = true ->
  exists w',
    step w (at_time t activity_failed) = Some w' /\
    pc w' = failed /\
    self w' = self w /\
    commands w' = commands w /\
    forall history : list Task,
      run w' history = Some w' /\
      (forall w'', run w (at_time t activity_failed :: history) = Some w'' ->
                   pc w'' = failed /\
                   order_state (self w'') = order_state (self w) /\
                   user_notifications (commands w'') =
                   user_notifications (commands w)).
Proof.
  intros Hawait.
  assert (Hunf : finished (pc w) = false) by (destruct (pc w); easy).
  exists (goto failed (set_now t w)).
  assert (Hstep : step w (at_time t activity_failed) =
                  Some (goto failed (set_now t w))).
  { rewrite step_unfinished by exact Hunf. simpl. now rewrite Hawait. }
  split; [exact Hstep|].
  repeat (split; [reflexivity|]).
  intros history.
  assert (Hrun : run (goto failed (set_now t w)) history =
                 Some (goto failed (set_now t w)))
    by (apply run_finished; reflexivity).
  split; [exact Hrun|].
  intros w'' H. simpl in H. rewrite Hstep, Hrun in H.
  injection H as <-. repeat split.
Qed.

Lemma notifying_history_run :
  run (start sample_input 0 0) notifying_history = Some notifying_instance.
Proof. vm_compute. reflexivity. Qed.

Lemma activity_failure_aborts_witness :
  exists w',
    step notifying_instance (at_time 15000000 activity_failed) = Some w' /\
    pc w' = failed /\
    order_state (self w') = OrderState.ORDER_ACCEPTED /\
    user_notifications (commands w') =
      [UserNotificationMessageType.ORDER_ACCEPTED] /\
    forall history : list Task, run w' history = Some w'.
Proof.
  destruct (activity_failure_aborts notifying_instance 15000000 eq_refl)
    as (w' & Hstep & Hpc & Hself & Hcmd & Hafter).
  exists w'.
  split; [exact Hstep|]. split; [exact Hpc|].
  split; [rewrite Hself; reflexivity|].
  split; [rewrite Hcmd; reflexivity|].
  intros history. exact (proj1 (Hafter history)).
Defined.

(* ------------------------------------------------------------------ *)
(** ** The remaining expiration time *)








(* ------------------------------------------------------------------ *)
(** ** A run in which no signal arrives *)

Lemma user_notifications_snoc (cs : list Command) (c : Command) :
  user_notifications (cs ++ [c]) = user_notifications cs ++ user_message_of c.
Proof.
  unfold user_notifications. rewrite flat_map_app. simpl.
  now rewrite app_nil_r.
Qed.

Lemma waits_snoc (cs : list Command) (c : Command) :
  waits (cs ++ [c]) = waits cs ++ wait_of c.
Proof.
  unfold waits. rewrite flat_map_app. simpl. now rewrite app_nil_r.
Qed.












(* ------------------------------------------------------------------ *)
(** ** The complete order *)



(** A signal that arrives while a notification is being delivered is
    applied to the state, but the flag it sets is cleared when the
    delivery ends (line 173): in [hasty_history] the order is picked up,
    yet ORDER_BEING_PREPARED is never sent. *)
Lemma hasty_prepare_is_not_announced :
  served_in_order hasty_history /\
  exists w,
    run (start sample_input 0 0) hasty_history = Some w /\
    pc w = returned OrderState.ORDER_PICKED_UP /\
    user_notifications (commands w) =
      [UserNotificationMessageType.ORDER_ACCEPTED;
       UserNotificationMessageType.ORDER_READY;
       UserNotificationMessageType.ORDER_COMPLETED].
Proof.
  split; [repeat split|].
  eexists. split; [vm_compute; reflexivity|].
  split; reflexivity.
Qed.


(* ================================================================== *)
(** * Further properties of the code *)

(* ------------------------------------------------------------------ *)
(** ** The two tables of schemas/order.py *)

(** X1.  A state is terminal ([is_terminal_state]) exactly when
    [_STATE_TRANSITIONS] gives it no successor, and a state that requires
    vendor action always has a successor. *)
Theorem terminal_iff_no_successor (s : OrderState.t) :
  (is_terminal_state s = true <-> allowed_next_states s = []) /\
  (requires_vendor_action s = true ->
   is_terminal_state s = false /\ allowed_next_states s <> []).
Proof.
  destruct s; simpl; (split; [split|]); intros; try reflexivity;
    try discriminate; split; try reflexivity; discriminate.
Qed.

Lemma transition_advances (s t : OrderState.t) :
  can_transition_to s t = true -> (stage s < stage t)%nat.
Proof. destruct s, t; simpl; intros H; try discriminate H; lia. Qed.

(** X2.  The table is forward-only: along one or more transitions the
    stage of the order grows strictly, so no state is reached from itself
    and there is no way back. *)
Theorem transitions_forward_only (s t : OrderState.t) :
  transitions s t ->
  (stage s < stage t)%nat /\ s <> t /\ ~ transitions t s.
Proof.
  assert (Hlt : forall a b, transitions a b -> (stage a < stage b)%nat).
  { intros a b H. induction H as [a b H | a b c H _ IH].
    - now apply transition_advances.
    - apply transition_advances in H. lia. }
  intros H. pose proof (Hlt s t H) as Hst.
  split; [exact Hst|]. split.
  - intros ->. lia.
  - intros Hback. apply Hlt in Hback. lia.
Qed.

Lemma transitions_forward_only_witness :
  (stage OrderState.ORDER_PLACED < stage OrderState.ORDER_PICKED_UP)%nat /\
  OrderState.ORDER_PLACED <> OrderState.ORDER_PICKED_UP /\
  ~ transitions OrderState.ORDER_PICKED_UP OrderState.ORDER_PLACED.
Proof.
  apply transitions_forward_only.
  apply (transitions_more _ OrderState.VENDOR_NOTIFIED); [reflexivity|].
  apply (transitions_more _ OrderState.ORDER_ACCEPTED); [reflexivity|].
  apply (transitions_more _ OrderState.ORDER_PREPARATION); [reflexivity|].
  apply (transitions_more _ OrderState.ORDER_READY); [reflexivity|].
  apply transitions_one. reflexivity.
Defined.

(** X3.  Both dicts have every state as a key, each once: the defaults of
    [allowed_next_states] and [description] are never returned, a
    description is never the fallback text, and different states have
    different descriptions. *)
Theorem tables_cover_every_state :
  NoDup (keys _STATE_TRANSITIONS) /\
  NoDup (keys _STATE_DESCRIPTIONS) /\
  forall s : OrderState.t,
    In s (keys _STATE_TRANSITIONS) /\
    In s (keys _STATE_DESCRIPTIONS) /\
    (forall d, dict_get _STATE_TRANSITIONS s d = allowed_next_states s) /\
    (forall d, dict_get _STATE_DESCRIPTIONS s d = description s) /\
    description s <> "Unknown state"%string /\
    (forall t, description s = description t -> s = t).
Proof.
  split.
  { repeat constructor; simpl; intuition discriminate. }
  split.
  { repeat constructor; simpl; intuition discriminate. }
  intros s. repeat split.
  - destruct s; simpl; tauto.
  - destruct s; simpl; tauto.
  - intros d. now destruct s.
  - intros d. now destruct s.
  - destruct s; discriminate.
  - intros t. destruct s, t; intros H; try reflexivity; discriminate H.
Qed.

(* ------------------------------------------------------------------ *)
(** ** Signals outside the vendor's window *)

Lemma handle_signal_no_successor (s : SignalName) (o : Orders) :
  contains (target s) (allowed_next_states (order_state o)) = false ->
  handle_signal s o = o.
Proof. intros H. rewrite handle_signal_eq, H. reflexivity. Qed.

(** X4.  While the order is ORDER_PLACED, and once it is ORDER_DECLINED or
    ORDER_PICKED_UP, every signal is dropped: any sequence of signals leaves
    all fields of the instance as they are. *)
Theorem signals_dropped_when_placed_or_terminal
        (signals : list SignalName) (o : Orders) :
  order_state o = OrderState.ORDER_PLACED \/
  is_terminal_state (order_state o) = true ->
  replay signals o = o.
Proof.
  intros H. unfold replay.
  induction signals as [|s rest IH]; simpl; [reflexivity|].
  rewrite handle_signal_no_successor; [exact IH|].
  destruct H as [-> | H].
  - now destruct s.
  - destruct (order_state o), s; try discriminate H; reflexivity.
Qed.

Lemma signals_dropped_when_placed_or_terminal_witness :
  replay [sig_accept_order; sig_prepare_order; sig_ready_order;
          sig_pick_up_order; sig_decline_order]
         (__init__ sample_input 0) = __init__ sample_input 0.
Proof.
  apply signals_dropped_when_placed_or_terminal. left. reflexivity.
Defined.

(* ------------------------------------------------------------------ *)
(** ** What holds throughout a run *)

Lemma increasing_snoc (lo x : nat) (l : list nat) :
  increasing_from lo (l ++ [x]) =
  increasing_from lo l && (last_from lo l <? x)%nat.
Proof.
  revert lo. induction l as [|y l IH]; intros lo; simpl.
  - now rewrite andb_true_r.
  - rewrite IH. now rewrite andb_assoc.
Qed.

Lemma last_from_snoc (lo x : nat) (l : list nat) :
  last_from lo (l ++ [x]) = x.
Proof. revert lo. induction l as [|y l IH]; intros lo; simpl; auto. Qed.

Lemma increasing_sorted (lo : nat) (l : list nat) :
  increasing_from lo l = true ->
  StronglySorted lt l /\ Forall (fun x => (lo < x)%nat) l.
Proof.
  revert lo. induction l as [|x l IH]; intros lo H; simpl in H.
  - split; constructor.
  - apply andb_prop in H as [Hx Hl]. apply Nat.ltb_lt in Hx.
    destruct (IH x Hl) as [Hs Hf].
    split; constructor; auto.
    eapply Forall_impl; [|exact Hf]. simpl. intros; lia.
Qed.

Lemma notify_completed_spec (fr : Frame) (w : Instance) :
  exists act,
    notify_completed fr w =
    goto (at_notify_user fr UserNotificationMessageType.ORDER_COMPLETED)
         (issue (execute_activity act) w) /\
    user_message_of (execute_activity act) =
    [UserNotificationMessageType.ORDER_COMPLETED].
Proof.
  unfold notify_completed.
  destruct (notify_user_in_run w fr UserNotificationMessageType.ORDER_COMPLETED)
    as (act & Hact & Hmsg).
  exists act. rewrite Hact. split; [reflexivity | exact Hmsg].
Qed.

(** A signal changes the instance fields through its handler only. *)
Lemma self_on_signal (s : SignalName) (w : Instance) :
  self (on_signal s w) = handle_signal s (self w).
Proof.
  unfold on_signal. simpl.
  destruct (pc w); try reflexivity.
  - destruct (is_new_state _); [|reflexivity].
    now rewrite self_resume.
  - destruct (picked_up _); [|reflexivity].
    destruct (notify_completed_spec fr (update_self (handle_signal s) w))
      as (act & -> & _).
    reflexivity.
Qed.

Lemma vendor_notifications_snoc (cs : list Command) (c : Command) :
  vendor_notifications (cs ++ [c]) =
  vendor_notifications cs ++ vendor_message_of c.
Proof.
  unfold vendor_notifications. rewrite flat_map_app. simpl.
  now rewrite app_nil_r.
Qed.

Ltac normalize_run :=
  unfold notification_ranks, notification_ranks' in *; simpl in *;
  repeat (progress
            (rewrite ?user_notifications_snoc, ?waits_snoc,
               ?vendor_notifications_snoc, ?map_app,
               ?increasing_snoc, ?last_from_snoc, ?app_nil_r in *;
             simpl in *)).

Lemma run_invariant_start (a : OrderWorkflowInput) (start_time now : Z) :
  run_invariant a (start a start_time now).
Proof.
  unfold run_invariant; simpl.
  repeat split; auto; try lia. intros H. now contradiction H.
Qed.

Ltac split_invariant :=
  repeat match goal with
         | |- _ /\ _ => split
         | H : _ /\ _ |- _ => destruct H
         end.

Ltac close_invariant :=
  split_invariant;
  try assumption; try reflexivity; try discriminate; try congruence;
  try (intros; discriminate); try (intros; congruence);
  try lia;
  try (apply andb_true_intro; split; [assumption | apply Nat.ltb_lt; lia]);
  try (left; assumption); try (left; reflexivity);
  try (right; assumption); try (right; reflexivity);
  try (intros; exfalso; congruence);
  try (match goal with
       | H : _ <> _ -> ?G |- _ <> _ -> ?G => intros _; apply H; discriminate
       end).

Ltac unfold_resumption :=
  unfold resume_wait_with_expiration, match_order_state, notify_completed,
    await_helper, notify_user, user_input in *;
  simpl in *.

Lemma run_invariant_signal (a : OrderWorkflowInput) (w : Instance)
      (s : SignalName) :
  run_invariant a w -> finished (pc w) = false ->
  run_invariant a (on_signal s w).
Proof.
  intros Inv Hfin.
  destruct w as [[st t0 f e] a' p nw si cs].
  unfold run_invariant, on_signal in *.
  destruct p as [ | od | od | od | fr | fr msg | fr | res | ];
    try discriminate Hfin; simpl in Inv |- *.
  - destruct Inv as (He & Hinc & Hinc' & Hw & Hpl & Hv & Hv1 & Hst & Hf & Hv0).
    subst st. destruct s; simpl; close_invariant.
  - destruct Inv as (He & Hinc & Hinc' & Hw & Hpl & Hv & Hv1 & Hst & Hf & Hv0).
    subst st. destruct s; simpl; close_invariant.
  - destruct Inv as (He & Hinc & Hinc' & Hw & Hpl & Hv & Hv1 & Hst & Hf & Hv0).
    subst st. destruct s; simpl; close_invariant.
  - destruct Inv as (He & Hinc & Hinc' & Hw & Hpl & Hv & Hv1 &
                     Hn & Hww & Hnp & Hf0 & Hf1).
    destruct s, st; simpl in *; close_invariant.
  - (* waiting with expiration *)
    destruct Inv as (He & Hinc & Hinc' & Hw & Hpl & Hv & Hv1 &
                     Hne & Hf & Hst & Hlast & Hlast').
    subst f.
    destruct s, st; simpl in *;
      try (destruct Hst as [Hst | Hst]; discriminate Hst);
      unfold_resumption;
      try destruct (up_notification_preference (user_preference fr));
      normalize_run; close_invariant.
  - (* a notification is being delivered *)
    destruct Inv as (He & Hinc & Hinc' & Hw & Hpl & Hv & Hv1 &
                     Hne & Hlast & Hlast' & Hst).
    destruct msg, s, st; simpl in *;
      try (destruct Hst as [Hst | Hst]; discriminate Hst);
      close_invariant.
  - (* waiting for the pick-up *)
    destruct Inv as (He & Hinc & Hinc' & Hw & Hpl & Hv & Hv1 &
                     Hne & Hst & Hlast & Hlast').
    subst st.
    destruct s; simpl in *;
      unfold_resumption;
      try destruct (up_notification_preference (user_preference fr));
      normalize_run; close_invariant.
Qed.

Lemma waits_head_snoc (W : list (option Z)) (full : Z) (x : option Z) :
  (W = [] \/ exists rest, W = Some full :: rest) -> W <> [] ->
  W ++ [x] = [] \/ exists rest, W ++ [x] = Some full :: rest.
Proof.
  intros [H | (rest & H)] Hne; [contradiction|].
  right. rewrite H. simpl. eexists; reflexivity.
Qed.

Lemma snoc_not_nil {A : Type} (l : list A) (x : A) : l ++ [x] <> [].
Proof. destruct l; discriminate. Qed.

Ltac close_waits :=
  try (apply snoc_not_nil);
  try (apply waits_head_snoc; assumption);
  try (right; eexists; reflexivity).

Lemma run_invariant_completed (a : OrderWorkflowInput) (w w' : Instance)
      (r : ActivityResult) :
  run_invariant a w -> on_activity_completed r w = Some w' ->
  run_invariant a w'.
Proof.
  intros Inv Hstep.
  destruct w as [[st t0 f e] a' p nw si cs].
  unfold run_invariant, on_activity_completed in *.
  destruct p as [ | od | od | od | fr | fr msg | fr | res | ];
    simpl in Inv, Hstep;
    destruct r as [od' | vp | up | ]; try discriminate Hstep;
    injection Hstep as <-.
  - destruct Inv as (He & Hinc & Hinc' & Hw & Hpl & Hv & Hv1 & Hst & Hf & Hv0).
    subst st. normalize_run; close_invariant.
  - destruct Inv as (He & Hinc & Hinc' & Hw & Hpl & Hv & Hv1 & Hst & Hf & Hv0).
    subst st.
    unfold await_helper, notify_vendor, vendor_input. simpl.
    destruct (vp_notification_preference vp);
      normalize_run; rewrite ?Hv0 in *; simpl in *; close_invariant.
  - destruct Inv as (He & Hinc & Hinc' & Hw & Hpl & Hv & Hv1 & Hst & Hf & Hv0).
    subst st.
    destruct (Hpl eq_refl) as [Hn0 Hw0].
    unfold after_notify_vendor.
    normalize_run; rewrite ?Hv0 in *; simpl in *; close_invariant.
  - (* the loop is entered *)
    destruct Inv as (He & Hinc & Hinc' & Hw & Hpl & Hv & Hv1 &
                     Hn & Hww & Hnp & Hf0 & Hf1).
    specialize (Hv1 Hnp).
    unfold notification_ranks in Hn. simpl in Hn. apply map_eq_nil in Hn.
    subst e. unfold enter_loop. simpl.
    destruct f.
    + specialize (Hf1 eq_refl).
      destruct st; try congruence;
        unfold_resumption;
        destruct (up_notification_preference up);
        normalize_run; rewrite ?Hn, ?Hww in *; simpl in *;
        close_invariant; close_waits.
    + specialize (Hf0 eq_refl). subst st.
      normalize_run; rewrite ?Hn, ?Hww in *; simpl in *;
      close_invariant; close_waits.
  - (* a notification has been delivered *)
    destruct Inv as (He & Hinc & Hinc' & Hw & Hpl & Hv & Hv1 &
                     Hne & Hlast & Hlast' & Hst).
    destruct msg, st; simpl in *;
      try (destruct Hst as [Hst | Hst]; discriminate Hst);
      try (match type of Hst with
           | _ /\ _ => destruct Hst as [Hst ?]; discriminate Hst
           end);
      try discriminate Hst;
      unfold wait_picked_up, picked_up; simpl;
      unfold_resumption;
      try destruct (up_notification_preference (user_preference fr));
      normalize_run; close_invariant; close_waits.
Qed.

Lemma run_invariant_timeout (a : OrderWorkflowInput) (w : Instance)
      (fr : Frame) :
  run_invariant a w -> pc w = at_wait_with_expiration fr ->
  run_invariant a (resume_wait_with_expiration true fr w).
Proof.
  intros Inv Hpc.
  destruct w as [[st t0 f e] a' p nw si cs]. simpl in Hpc. subst p.
  unfold run_invariant in *. simpl in Inv.
  destruct Inv as (He & Hinc & Hinc' & Hw & Hpl & Hv & Hv1 &
                   Hne & Hf & Hst & Hlast & Hlast').
  subst f.
  destruct st; simpl in *;
    try (destruct Hst as [Hst | Hst]; discriminate Hst);
    unfold_resumption;
    destruct (up_notification_preference (user_preference fr));
    normalize_run; close_invariant; close_waits.
Qed.

Lemma run_invariant_set_now (a : OrderWorkflowInput) (w : Instance) (t : Z) :
  run_invariant a w -> run_invariant a (set_now t w).
Proof. intros H. exact H. Qed.

Lemma run_invariant_step (a : OrderWorkflowInput) (w w' : Instance)
      (t : Task) :
  run_invariant a w -> step w t = Some w' -> run_invariant a w'.
Proof.
  intros Inv Hstep. unfold step in Hstep.
  destruct (finished (pc w)) eqn:Hfin.
  { injection Hstep as <-. exact Inv. }
  apply (run_invariant_set_now a w (task_time t)) in Inv.
  destruct (task_event t) as [s | r | | ].
  - injection Hstep as <-. now apply run_invariant_signal.
  - exact (run_invariant_completed a _ w' r Inv Hstep).
  - simpl in Hstep. destruct (awaiting_activity (pc w)); [|discriminate].
    injection Hstep as <-.
    unfold run_invariant in *. simpl in *.
    destruct Inv as (He & Hinc & Hinc' & Hw & Hpl & Hv & Hv1 & _).
    repeat (split; [assumption|]). exact I.
  - simpl in Hstep.
    destruct (pc w) as [ | | | | fr | | | | ] eqn:Hpc; try discriminate.
    injection Hstep as <-.
    now apply run_invariant_timeout.
Qed.

Lemma run_invariant_run (a : OrderWorkflowInput) (history : list Task) :
  forall w w' : Instance,
    run_invariant a w -> run w history = Some w' -> run_invariant a w'.
Proof.
  induction history as [|t rest IH]; intros w w' Inv Hrun; simpl in Hrun.
  - now injection Hrun as <-.
  - destruct (step w t) as [w1|] eqn:Hstep; [|discriminate].
    apply (IH w1 w' (run_invariant_step a w w1 t Inv Hstep) Hrun).
Qed.

Lemma run_invariant_reached (a : OrderWorkflowInput) (start_time now : Z)
      (history : list Task) (w : Instance) :
  run (start a start_time now) history = Some w -> run_invariant a w.
Proof.
  apply run_invariant_run, run_invariant_start.
Qed.

(** X5.  A run only ever returns a terminal state: the result is the
    order state at the moment of returning, and it is ORDER_DECLINED or
    ORDER_PICKED_UP, whatever signals, timeouts and delays occurred. *)
Theorem returns_only_terminal_states
        (a : OrderWorkflowInput) (start_time now : Z)
        (history : list Task) (w : Instance) (result : OrderState.t) :
  run (start a start_time now) history = Some w ->
  pc w = returned result ->
  result = order_state (self w) /\
  is_terminal_state result = true /\
  (result = OrderState.ORDER_DECLINED \/ result = OrderState.ORDER_PICKED_UP).
Proof.
  intros Hrun Hpc.
  pose proof (run_invariant_reached a start_time now history w Hrun) as Inv.
  unfold run_invariant in Inv. rewrite Hpc in Inv.
  destruct Inv as (_ & _ & _ & _ & _ & _ & _ & Hres & Hterm).
  rewrite <- Hres in Hterm.
  split; [exact Hres|]. split; [exact Hterm|].
  destruct result; try discriminate Hterm; auto.
Qed.

Lemma returns_only_terminal_states_witness :
  OrderState.ORDER_PICKED_UP = order_state (self picked_up_instance) /\
  is_terminal_state OrderState.ORDER_PICKED_UP = true /\
  (OrderState.ORDER_PICKED_UP = OrderState.ORDER_DECLINED \/
   OrderState.ORDER_PICKED_UP = OrderState.ORDER_PICKED_UP).
Proof.
  apply (returns_only_terminal_states sample_input 0 0 hasty_history
           picked_up_instance OrderState.ORDER_PICKED_UP).
  - vm_compute. reflexivity.
  - reflexivity.
Defined.

Lemma increasing_above (lo : nat) (l : list nat) :
  increasing_from lo l = true -> Forall (fun x => (lo < x)%nat) l.
Proof. intros H. now apply increasing_sorted. Qed.

Lemma precedes_ranks (m1 m2 : UserNotificationMessageType.t) :
  precedes m1 m2 =
  (notification_rank m1 <? notification_rank m2)%nat &&
  (notification_rank' m1 <? notification_rank' m2)%nat.
Proof. now destruct m1, m2. Qed.

Lemma increasing_precedes (N : list UserNotificationMessageType.t) :
  forall lo lo' : nat,
    increasing_from lo (map notification_rank N) = true ->
    increasing_from lo' (map notification_rank' N) = true ->
    StronglySorted (fun m1 m2 => precedes m1 m2 = true) N.
Proof.
  induction N as [|m N IH]; intros lo lo' H H'; simpl in *.
  - constructor.
  - apply andb_prop in H as [_ H]. apply andb_prop in H' as [_ H'].
    constructor; [now apply (IH _ _ H H')|].
    apply increasing_above in H, H'.
    rewrite Forall_map in H, H'.
    rewrite Forall_forall in *. intros y Hy.
    rewrite precedes_ranks. apply andb_true_intro.
    split; apply Nat.ltb_lt; auto.
Qed.

Lemma precedes_irreflexive (m : UserNotificationMessageType.t) :
  precedes m m = false.
Proof. now destruct m. Qed.

Lemma sorted_precedes_NoDup (N : list UserNotificationMessageType.t) :
  StronglySorted (fun m1 m2 => precedes m1 m2 = true) N -> NoDup N.
Proof.
  induction 1 as [|m N _ IH Hall]; constructor; [|exact IH].
  intros Hin. rewrite Forall_forall in Hall.
  specialize (Hall m Hin). rewrite precedes_irreflexive in Hall.
  discriminate.
Qed.

(** X6.  At every point of every run the notifications sent to the user
    so far are in lifecycle order: each one precedes every later one, where
    ORDER_ACCEPTED precedes ORDER_BEING_PREPARED, both precede ORDER_READY,
    ORDER_CANCELED and ORDER_COMPLETED, ORDER_READY precedes ORDER_COMPLETED,
    and nothing follows ORDER_CANCELED or ORDER_COMPLETED.  In particular no
    notification is sent twice, and ORDER_CANCELED is never sent together
    with ORDER_READY or ORDER_COMPLETED. *)
Theorem notifications_in_lifecycle_order
        (a : OrderWorkflowInput) (start_time now : Z)
        (history : list Task) (w : Instance) :
  run (start a start_time now) history = Some w ->
  StronglySorted (fun m1 m2 => precedes m1 m2 = true)
                 (user_notifications (commands w)) /\
  NoDup (user_notifications (commands w)) /\
  (In UserNotificationMessageType.ORDER_CANCELED
      (user_notifications (commands w)) ->
   ~ In UserNotificationMessageType.ORDER_READY
        (user_notifications (commands w)) /\
   ~ In UserNotificationMessageType.ORDER_COMPLETED
        (user_notifications (commands w))).
Proof.
  intros Hrun.
  pose proof (run_invariant_reached a start_time now history w Hrun) as Inv.
  destruct Inv as (_ & Hinc & Hinc' & _).
  pose proof (increasing_precedes _ 0%nat 0%nat Hinc Hinc') as Hsorted.
  split; [exact Hsorted|]. split; [now apply sorted_precedes_NoDup|].
  clear - Hsorted.
  induction Hsorted as [|m N Hs IH Hall]; intros Hin; [contradiction|].
  rewrite Forall_forall in Hall.
  destruct Hin as [-> | Hin].
  - split; intros [Heq | Hin']; try discriminate;
      apply Hall in Hin'; discriminate.
  - destruct (IH Hin) as [Hr Hc].
    split; intros [Heq | Hin']; try contradiction; subst m;
      apply Hall in Hin; discriminate.
Qed.

Lemma notifications_in_lifecycle_order_witness :
  StronglySorted (fun m1 m2 => precedes m1 m2 = true)
                 (user_notifications (commands picked_up_instance)) /\
  NoDup (user_notifications (commands picked_up_instance)) /\
  (In UserNotificationMessageType.ORDER_CANCELED
      (user_notifications (commands picked_up_instance)) ->
   ~ In UserNotificationMessageType.ORDER_READY
        (user_notifications (commands picked_up_instance)) /\
   ~ In UserNotificationMessageType.ORDER_COMPLETED
        (user_notifications (commands picked_up_instance))).
Proof.
  apply (notifications_in_lifecycle_order sample_input 0 0 hasty_history).
  vm_compute. reflexivity.
Defined.

(** X7.  The first wait of a run carries the full expiration time of the
    input, [timedelta(seconds=expiration_time)], at whatever time the loop
    is entered: the time spent on the fetches and on notifying the vendor is
    not taken off it. *)
Theorem first_wait_has_full_expiration
        (a : OrderWorkflowInput) (start_time now : Z)
        (history : list Task) (w : Instance) :
  run (start a start_time now) history = Some w ->
  waits (commands w) = [] \/
  exists rest,
    waits (commands w) = Some (timedelta_seconds (expiration_time a)) :: rest.
Proof.
  intros Hrun.
  pose proof (run_invariant_reached a start_time now history w Hrun) as Inv.
  unfold run_invariant in Inv.
  destruct Inv as (_ & _ & _ & Hw & _). exact Hw.
Qed.

Lemma first_wait_has_full_expiration_witness :
  waits (commands picked_up_instance) = [] \/
  exists rest,
    waits (commands picked_up_instance) =
    Some (timedelta_seconds (expiration_time sample_input)) :: rest.
Proof.
  apply (first_wait_has_full_expiration sample_input 0 0 hasty_history).
  vm_compute. reflexivity.
Defined.

(** X8.  The vendor is notified at most once in a run, with NEW_ORDER, and
    before anything else happens to the order: as long as the order is
    ORDER_PLACED nothing has been sent to the user and no wait has begun,
    and once the order has left ORDER_PLACED, or the user has been sent
    anything, the vendor notification has been sent. *)
Theorem vendor_notified_once_and_first
        (a : OrderWorkflowInput) (start_time now : Z)
        (history : list Task) (w : Instance) :
  run (start a start_time now) history = Some w ->
  (List.length (vendor_notifications (commands w)) <= 1)%nat /\
  (order_state (self w) = OrderState.ORDER_PLACED ->
   user_notifications (commands w) = [] /\ waits (commands w) = []) /\
  (order_state (self w) <> OrderState.ORDER_PLACED ->
   vendor_notifications (commands w) =
     [VendorNotificationMessageType.NEW_ORDER]) /\
  (user_notifications (commands w) <> [] ->
   vendor_notifications (commands w) =
     [VendorNotificationMessageType.NEW_ORDER]).
Proof.
  intros Hrun.
  pose proof (run_invariant_reached a start_time now history w Hrun) as Inv.
  unfold run_invariant in Inv.
  destruct Inv as (_ & _ & _ & _ & Hpl & Hv & Hv1 & _).
  assert (Hpl' : order_state (self w) = OrderState.ORDER_PLACED ->
                 user_notifications (commands w) = [] /\
                 waits (commands w) = []).
  { intros Hs. apply Hpl in Hs as [Hn Hw0]. split; [|exact Hw0].
    now apply map_eq_nil in Hn. }
  split; [exact Hv|]. split; [exact Hpl'|]. split; [exact Hv1|].
  intros Hne. apply Hv1. intros Hs. apply Hpl' in Hs as [Hn _].
  contradiction.
Qed.

Lemma vendor_notified_once_and_first_witness :
  (List.length (vendor_notifications (commands picked_up_instance)) <= 1)%nat /\
  (order_state (self picked_up_instance) = OrderState.ORDER_PLACED ->
   user_notifications (commands picked_up_instance) = [] /\
   waits (commands picked_up_instance) = []) /\
  (order_state (self picked_up_instance) <> OrderState.ORDER_PLACED ->
   vendor_notifications (commands picked_up_instance) =
     [VendorNotificationMessageType.NEW_ORDER]) /\
  (user_notifications (commands picked_up_instance) <> [] ->
   vendor_notifications (commands picked_up_instance) =
     [VendorNotificationMessageType.NEW_ORDER]).
Proof.
  apply (vendor_notified_once_and_first sample_input 0 0 hasty_history).
  vm_compute. reflexivity.
Defined.

(* ------------------------------------------------------------------ *)
(** ** How a task changes the order state *)

(** The instance fields change in four ways only: by a signal handler, by
    the timeout branch of [_wait_with_expiration], by the assignment of
    VENDOR_NOTIFIED when the vendor notification is delivered, and by the
    clearing of the flag after a notification of the loop. *)
Lemma step_self (w w' : Instance) (t : Task) :
  step w t = Some w' ->
  self w' = self w \/
  (exists s, task_event t = signal s /\ self w' = handle_signal s (self w)) \/
  (task_event t = timer_fired /\
   (exists fr, pc w = at_wait_with_expiration fr) /\
   self w' = on_timeout (self w)) \/
  ((exists od, pc w = at_notify_vendor od) /\
   self w' = set_order_state OrderState.VENDOR_NOTIFIED (self w)) \/
  ((exists fr m, pc w = at_notify_user fr m) /\
   self w' = set_is_new_state false (self w)).
Proof.
  intros Hstep. unfold step in Hstep.
  destruct (finished (pc w)) eqn:Hfin.
  { injection Hstep as <-. now left. }
  destruct (task_event t) as [s | r | | ] eqn:Hev.
  - injection Hstep as <-. right; left. exists s. split; [reflexivity|].
    now rewrite self_on_signal.
  - unfold on_activity_completed in Hstep. simpl in Hstep.
    destruct (pc w) as [ | od | od | od | fr | fr msg | fr | res | ] eqn:Hpc;
      destruct r as [od' | vp | up | ]; try discriminate Hstep;
      injection Hstep as <-.
    + now left.
    + left. unfold await_helper, notify_vendor, vendor_input. simpl.
      now destruct (vp_notification_preference vp).
    + right; right; right; left. split; [eexists; reflexivity | reflexivity].
    + left. unfold enter_loop. simpl.
      destruct (is_new_state (self w)); [|reflexivity].
      now rewrite self_resume.
    + destruct msg; simpl.
      * right; right; right; right. split; [do 2 eexists; reflexivity | reflexivity].
      * now left.
      * right; right; right; right. split; [do 2 eexists; reflexivity | reflexivity].
      * left. unfold wait_picked_up. simpl.
        destruct (picked_up _); [|reflexivity].
        match goal with
        | |- self (notify_completed ?f ?x) = _ =>
            destruct (notify_completed_spec f x) as (act & -> & _)
        end.
        reflexivity.
      * now left.
  - simpl in Hstep. destruct (awaiting_activity (pc w)); [|discriminate].
    injection Hstep as <-. now left.
  - simpl in Hstep.
    destruct (pc w) as [ | | | | fr | | | | ] eqn:Hpc; try discriminate.
    injection Hstep as <-. right; right; left.
    split; [reflexivity|]. split; [eexists; reflexivity|].
    now rewrite self_resume.
Qed.

Lemma handle_signal_accepted (s : SignalName) (o : Orders) :
  accepted (order_state o) = true ->
  accepted (order_state (handle_signal s o)) = true.
Proof.
  rewrite handle_signal_order_state.
  destruct (order_state o), s; simpl; intros H; try discriminate H;
    reflexivity.
Qed.

Lemma on_timeout_accepted (o : Orders) :
  accepted (order_state o) = true ->
  order_state (on_timeout o) = OrderState.ORDER_READY.
Proof.
  rewrite on_timeout_order_state.
  destruct (order_state o); simpl; intros H; try discriminate H; reflexivity.
Qed.

Lemma accepted_step (a : OrderWorkflowInput) (w w' : Instance) (t : Task) :
  run_invariant a w ->
  accepted (order_state (self w)) = true ->
  step w t = Some w' ->
  accepted (order_state (self w')) = true.
Proof.
  intros Inv Hacc Hstep.
  destruct (step_self w w' t Hstep)
    as [-> | [(s & _ & ->) | [(_ & _ & ->) | [((od & Hpc) & _) | (_ & ->)]]]].
  - exact Hacc.
  - now apply handle_signal_accepted.
  - now rewrite on_timeout_accepted.
  - unfold run_invariant in Inv. rewrite Hpc in Inv.
    destruct Inv as (_ & _ & _ & _ & _ & _ & _ & Hs & _).
    rewrite Hs in Hacc. discriminate Hacc.
  - exact Hacc.
Qed.

(** X9.  Once the vendor has accepted the order (the state is
    ORDER_ACCEPTED, ORDER_PREPARATION, ORDER_READY or ORDER_PICKED_UP), it
    stays accepted for the rest of the run: no signal and no timeout makes
    it ORDER_DECLINED (nor VENDOR_NOTIFIED or ORDER_PLACED) again. *)
Theorem accepted_order_is_never_declined
        (a : OrderWorkflowInput) (start_time now : Z)
        (before after : list Task) (w w' : Instance) :
  run (start a start_time now) before = Some w ->
  accepted (order_state (self w)) = true ->
  run w after = Some w' ->
  accepted (order_state (self w')) = true /\
  order_state (self w') <> OrderState.ORDER_DECLINED.
Proof.
  intros Hrun Hacc Hafter.
  pose proof (run_invariant_reached a start_time now before w Hrun) as Inv.
  clear Hrun.
  assert (H : accepted (order_state (self w')) = true).
  { revert w Inv Hacc Hafter.
    induction after as [|t rest IH]; intros w Inv Hacc Hafter;
      simpl in Hafter.
    - now injection Hafter as <-.
    - destruct (step w t) as [w1|] eqn:Hstep; [|discriminate].
      apply (IH w1).
      + exact (run_invariant_step a w w1 t Inv Hstep).
      + exact (accepted_step a w w1 t Inv Hacc Hstep).
      + exact Hafter. }
  split; [exact H|]. intros Hd. rewrite Hd in H. discriminate H.
Qed.

Lemma accepted_order_is_never_declined_witness :
  exists w',
    run accepted_instance
        [at_time 8000000 (signal sig_decline_order);
         at_time 30000900 timer_fired] = Some w' /\
    accepted (order_state (self w')) = true /\
    order_state (self w') <> OrderState.ORDER_DECLINED.
Proof.
  eexists. split; [vm_compute; reflexivity|].
  apply (accepted_order_is_never_declined sample_input 0 0 accepted_history
           [at_time 8000000 (signal sig_decline_order);
            at_time 30000900 timer_fired] accepted_instance).
  - exact accepted_history_run.
  - reflexivity.
  - vm_compute. reflexivity.
Defined.




(* ------------------------------------------------------------------ *)
(** ** Scenarios of the loop *)

Lemma run_app (h1 h2 : list Task) :
  forall w : Instance,
    run w (h1 ++ h2) =
    match run w h1 with
    | Some w1 => run w1 h2
    | None => None
    end.
Proof.
  induction h1 as [|t rest IH]; intros w; simpl; [reflexivity|].
  destruct (step w t); [apply IH | reflexivity].
Qed.

Lemma signals_of_cons_signal (t : Task) (s : SignalName) (rest : list Task) :
  task_event t = signal s -> signals_of (t :: rest) = s :: signals_of rest.
Proof. intros H. unfold signals_of. simpl. now rewrite H. Qed.

(** Signals that arrive while an activity is awaited run their handlers,
    oldest first, and nothing else: [run] stays where it is and asks
    nothing of the runtime. *)
Lemma signals_while_awaiting (signals : list Task) :
  forallb is_signal signals = true ->
  forall w : Instance,
    awaiting_activity (pc w) = true ->
    exists w',
      run w signals = Some w' /\
      pc w' = pc w /\
      commands w' = commands w /\
      info_start_time w' = info_start_time w /\
      self w' = replay (signals_of signals) (self w).
Proof.
  induction signals as [|t rest IH]; intros Hall w Hpc.
  - exists w. repeat split.
  - simpl in Hall. apply andb_prop in Hall as [Ht Hrest].
    cbn [run].
    assert (Hfin : finished (pc w) = false) by (destruct (pc w); easy).
    rewrite step_unfinished by exact Hfin.
    unfold is_signal in Ht.
    destruct (task_event t) as [s| | |] eqn:Hev; try discriminate.
    assert (Hw : on_signal s (set_now (task_time t) w) =
                 update_self (handle_signal s) (set_now (task_time t) w)).
    { unfold on_signal. simpl. destruct (pc w); try reflexivity; discriminate. }
    rewrite Hw.
    destruct (IH Hrest (update_self (handle_signal s) (set_now (task_time t) w))
                 Hpc) as (w' & Hrun & Hpc' & Hcmd & Hst & Hself).
    exists w'. rewrite (signals_of_cons_signal t s rest Hev).
    repeat split; assumption.
Qed.

Lemma replay_terminal (signals : list SignalName) (o : Orders) :
  is_terminal_state (order_state o) = true ->
  order_state (replay signals o) = order_state o.
Proof.
  intros H. rewrite replay_order_state.
  induction signals as [|s rest IH]; simpl; [reflexivity|].
  unfold advance at 2.
  destruct (order_state o), s; try discriminate H; exact IH.
Qed.



Lemma ends_wait_terminally (w : Instance) (fr : Frame) (s : SignalName) :
  pc w = at_wait_with_expiration fr ->
  can_transition_to (order_state (self w)) (target s) = true ->
  is_terminal_state (target s) = true ->
  exists act fr',
    on_signal s w =
    goto (at_notify_user fr' UserNotificationMessageType.ORDER_CANCELED)
         (issue (execute_activity act)
                (update_self (handle_signal s) w)) /\
    user_message_of (execute_activity act) =
      [UserNotificationMessageType.ORDER_CANCELED] /\
    order_state (handle_signal s (self w)) = target s.
Proof.
  intros Hpc Hcan Hterm.
  assert (Hflag : is_new_state (handle_signal s (self w)) = true).
  { rewrite handle_signal_eq. unfold can_transition_to in Hcan.
    now rewrite Hcan. }
  assert (Hstate : order_state (handle_signal s (self w)) = target s).
  { rewrite handle_signal_order_state. now rewrite Hcan. }
  unfold on_signal. simpl. rewrite Hpc, Hflag.
  destruct (resume_spec false fr (update_self (handle_signal s) w))
    as (act & Heq & Hmsg).
  simpl in Heq, Hmsg. rewrite Hstate in Heq, Hmsg.
  assert (Hm : message_for (target s) =
               UserNotificationMessageType.ORDER_CANCELED)
    by (destruct s; try discriminate Hterm; reflexivity).
  rewrite Hm in Heq, Hmsg.
  exists act. eexists. split; [exact Heq|]. split; [exact Hmsg | exact Hstate].
Qed.

(** X12.  A signal that is applied while [run] waits and that makes the
    order terminal ends the run: the user is sent ORDER_CANCELED, no
    further wait begins, and when the notification is delivered the run
    returns that terminal state, whatever signals arrive meanwhile.  This
    is [decline_order] in VENDOR_NOTIFIED; it is also [pick_up_order] in an
    ORDER_READY that was reached during a delivery, and then the user of a
    picked-up order is told ORDER_CANCELED and never ORDER_COMPLETED. *)
Theorem terminal_signal_ends_run_with_cancel
        (w : Instance) (fr : Frame) (s : SignalName)
        (signals : list Task) (t1 t2 : Z) :
  pc w = at_wait_with_expiration fr ->
  can_transition_to (order_state (self w)) (target s) = true ->
  is_terminal_state (target s) = true ->
  forallb is_signal signals = true ->
  exists w',
    run w (at_time t1 (signal s) :: signals ++
           [at_time t2 (activity_completed none_result)]) = Some w' /\
    pc w' = returned (target s) /\
    user_notifications (commands w') =
      user_notifications (commands w) ++
      [UserNotificationMessageType.ORDER_CANCELED] /\
    waits (commands w') = waits (commands w).
Proof.
  intros Hpc Hcan Hterm Hall.
  destruct (ends_wait_terminally (set_now t1 w) fr s Hpc Hcan Hterm)
    as (act & fr' & Hsig & Hmsg & Hstate).
  remember (on_signal s (set_now t1 w)) as w1 eqn:Hw1.
  assert (Hpc1 : pc w1 = at_notify_user fr'
                           UserNotificationMessageType.ORDER_CANCELED)
    by now rewrite Hsig.
  destruct (signals_while_awaiting signals Hall w1)
    as (w2 & Hrun & Hpc2 & Hcmd & _ & Hself).
  { now rewrite Hpc1. }
  rewrite Hpc1 in Hpc2.
  exists (return_order_state (set_now t2 w2)).
  split.
  { cbn [run]. rewrite step_unfinished by now rewrite Hpc.
    simpl. rewrite <- Hw1, run_app, Hrun. simpl.
    rewrite step_unfinished by now rewrite Hpc2.
    simpl. unfold on_activity_completed. simpl. now rewrite Hpc2. }
  simpl. rewrite Hcmd, Hself.
  assert (Hs1 : order_state (self w1) = target s).
  { rewrite Hsig. simpl. exact Hstate. }
  rewrite replay_terminal by now rewrite Hs1.
  rewrite Hs1, Hsig. simpl.
  rewrite user_notifications_snoc, waits_snoc, Hmsg. simpl.
  rewrite app_nil_r. repeat split.
Qed.

Lemma unannounced_history_run :
  run (start sample_input 0 0) unannounced_history =
  Some unannounced_instance.
Proof. vm_compute. reflexivity. Qed.

Lemma terminal_signal_ends_run_with_cancel_witness :
  order_state (self unannounced_instance) = OrderState.ORDER_READY /\
  exists w',
    run unannounced_instance
        [at_time 12000000 (signal sig_pick_up_order);
         at_time 12600000 (activity_completed none_result)] = Some w' /\
    pc w' = returned OrderState.ORDER_PICKED_UP /\
    user_notifications (commands w') =
      [UserNotificationMessageType.ORDER_ACCEPTED;
       UserNotificationMessageType.ORDER_BEING_PREPARED;
       UserNotificationMessageType.ORDER_CANCELED].
Proof.
  split; [reflexivity|].
  destruct (terminal_signal_ends_run_with_cancel unannounced_instance
              (set_remaining 23000000 accepted_frame)
              sig_pick_up_order [] 12000000 12600000 eq_refl eq_refl eq_refl
              eq_refl)
    as (w' & Hrun & Hpc' & Hnot & _).
  exists w'. repeat split; assumption.
Defined.

Lemma after_timeout_step (W : list (option Z)) (w w' : Instance) (t : Task) :
  after_timeout W w -> step w t = Some w' -> after_timeout W w'.
Proof.
  intros Hafter Hstep. unfold step in Hstep.
  destruct (finished (pc w)) eqn:Hfin.
  { injection Hstep as <-. exact Hafter. }
  unfold after_timeout in *.
  destruct w as [o a' p nw si cs]. simpl in *.
  destruct p as [ | od | od | od | fr | fr msg | fr | res | ];
    try contradiction; try discriminate Hfin;
    destruct (task_event t) as [s | r | | ]; simpl in Hstep;
    try discriminate Hstep.
  - (* a signal during a delivery *)
    injection Hstep as <-. unfold on_signal. simpl.
    destruct msg; try contradiction; exact Hafter.
  - (* the delivery ends *)
    unfold on_activity_completed in Hstep. simpl in Hstep.
    destruct r; try discriminate Hstep. injection Hstep as <-.
    destruct msg; try contradiction; simpl.
    + now left.
    + unfold wait_picked_up, picked_up. simpl.
      destruct (OrderState.eqb (order_state o) OrderState.ORDER_PICKED_UP);
        unfold_resumption;
        try destruct (up_notification_preference (user_preference fr));
        simpl; rewrite ?waits_snoc; simpl; rewrite ?app_nil_r;
        now rewrite Hafter.
    + now right.
  - (* the delivery fails *)
    injection Hstep as <-. simpl.
    destruct msg; try contradiction; auto.
  - (* a signal while waiting for the pick-up *)
    injection Hstep as <-. unfold on_signal, picked_up. simpl.
    destruct (OrderState.eqb (order_state (handle_signal s o))
                             OrderState.ORDER_PICKED_UP);
      unfold_resumption;
      try destruct (up_notification_preference (user_preference fr));
      simpl; rewrite ?waits_snoc; simpl; rewrite ?app_nil_r;
      exact Hafter.
Qed.

(** X13.  The timer fires at most once in a run.  After a timeout [run]
    never waits with an expiration again: it is delivering ORDER_READY,
    ORDER_CANCELED or ORDER_COMPLETED, waiting for the pick-up, or has
    ended; the only wait that may follow has no timeout, and a second
    [timer_fired] is no task of such a run. *)
Theorem timer_fires_at_most_once
        (w w1 w2 : Instance) (fr : Frame) (t : Z) (history : list Task) :
  pc w = at_wait_with_expiration fr ->
  step w (at_time t timer_fired) = Some w1 ->
  run w1 history = Some w2 ->
  past_the_loop (pc w2) = true /\
  (forall fr', pc w2 <> at_wait_with_expiration fr') /\
  (waits (commands w2) = waits (commands w) \/
   waits (commands w2) = waits (commands w) ++ [None]) /\
  (finished (pc w2) = false ->
   forall t', step w2 (at_time t' timer_fired) = None).
Proof.
  intros Hpc Hstep Hrun.
  assert (H1 : after_timeout (waits (commands w)) w1).
  { rewrite step_unfinished in Hstep by now rewrite Hpc.
    simpl in Hstep. rewrite Hpc in Hstep. injection Hstep as <-.
    destruct (resume_spec true fr (set_now t w)) as (act & Heq & _).
    rewrite Heq. unfold after_timeout. simpl.
    rewrite on_timeout_order_state, waits_snoc. simpl.
    rewrite app_nil_r.
    destruct (can_transition_to _ _); reflexivity. }
  assert (H2 : after_timeout (waits (commands w)) w2).
  { clear Hstep. revert w1 H1 Hrun.
    induction history as [|x rest IH]; intros w1 H1 Hrun; simpl in Hrun.
    - now injection Hrun as <-.
    - destruct (step w1 x) as [w1'|] eqn:Hx; [|discriminate].
      exact (IH w1' (after_timeout_step _ w1 w1' x H1 Hx) Hrun). }
  unfold after_timeout in H2.
  destruct (pc w2) as [ | od | od | od | fr2 | fr2 msg | fr2 | res | ] eqn:Hpc2;
    try contradiction;
    try (destruct msg; try contradiction);
    (split; [reflexivity|]); (split; [discriminate|]);
    (split; [auto|]); intros Hfin t'; try discriminate Hfin;
    unfold step; rewrite Hpc2; simpl; rewrite Hpc2; reflexivity.
Qed.

Lemma timer_fires_at_most_once_witness :
  exists w1 w2,
    step accepted_instance (at_time 30000900 timer_fired) = Some w1 /\
    run w1 [at_time 30001000 (signal sig_prepare_order);
            at_time 30001500 (activity_completed none_result)] = Some w2 /\
    past_the_loop (pc w2) = true /\
    waits (commands w2) = waits (commands accepted_instance) ++ [None] /\
    forall t', step w2 (at_time t' timer_fired) = None.
Proof.
  eexists. eexists.
  split; [vm_compute; reflexivity|].
  split; [vm_compute; reflexivity|].
  split; [reflexivity|]. split; [reflexivity|].
  refine (let H := timer_fires_at_most_once accepted_instance _ _
               accepted_frame 30000900
               [at_time 30001000 (signal sig_prepare_order);
                at_time 30001500 (activity_completed none_result)]
               eq_refl eq_refl eq_refl
          in proj2 (proj2 (proj2 H)) eq_refl).
Defined.

Ltac flatten_commands :=
  simpl; unfold user_notifications, waits;
  rewrite ?flat_map_app; simpl; rewrite ?app_nil_r, <- ?app_assoc; simpl.

(** X14.  An order that expires after the vendor accepted it.  The
    timeout makes it ORDER_READY and the user is sent ORDER_READY; when that
    is delivered [run] waits for the pick-up with no timeout.  There every
    signal but [pick_up_order] is dropped and leaves [run] waiting, and
    [pick_up_order] sends ORDER_COMPLETED and makes the run return
    ORDER_PICKED_UP. *)
Theorem expired_order_waits_for_pick_up
        (w : Instance) (fr : Frame) (t1 t2 : Z) :
  pc w = at_wait_with_expiration fr ->
  accepted (order_state (self w)) = true ->
  exists w1 fr1,
    run w [at_time t1 timer_fired;
           at_time t2 (activity_completed none_result)] = Some w1 /\
    pc w1 = at_wait_picked_up fr1 /\
    order_state (self w1) = OrderState.ORDER_READY /\
    user_notifications (commands w1) =
      user_notifications (commands w) ++
      [UserNotificationMessageType.ORDER_READY] /\
    waits (commands w1) = waits (commands w) ++ [None] /\
    (forall (s : SignalName) (t : Z),
        s <> sig_pick_up_order ->
        exists w1',
          step w1 (at_time t (signal s)) = Some w1' /\
          pc w1' = at_wait_picked_up fr1 /\
          self w1' = self w1 /\
          commands w1' = commands w1) /\
    (forall t3 t4 : Z,
        exists w2,
          run w1 [at_time t3 (signal sig_pick_up_order);
                  at_time t4 (activity_completed none_result)] = Some w2 /\
          pc w2 = returned OrderState.ORDER_PICKED_UP /\
          user_notifications (commands w2) =
            user_notifications (commands w) ++
            [UserNotificationMessageType.ORDER_READY;
             UserNotificationMessageType.ORDER_COMPLETED]).
Proof.
  intros Hpc Hacc.
  destruct w as [[st t0 f e] a' p nw si cs]. simpl in Hpc, Hacc. subst p.
  destruct fr as [od [uid pref] rem].
  destruct st; try discriminate Hacc; destruct pref;
    (eexists; eexists;
     split; [vm_compute; reflexivity|];
     split; [reflexivity|];
     split; [reflexivity|];
     split; [flatten_commands; reflexivity|];
     split; [flatten_commands; reflexivity|];
     split;
     [ intros s t Hs; destruct s; try (now contradiction Hs);
       eexists; (split; [vm_compute; reflexivity|]); repeat split
     | intros t3 t4; eexists; (split; [vm_compute; reflexivity|]);
       split; [reflexivity | flatten_commands; reflexivity] ]).
Qed.

Lemma expired_order_waits_for_pick_up_witness :
  exists w1 fr1,
    run accepted_instance
        [at_time 30000900 timer_fired;
         at_time 30001500 (activity_completed none_result)] = Some w1 /\
    pc w1 = at_wait_picked_up fr1 /\
    order_state (self w1) = OrderState.ORDER_READY /\
    (forall t3 t4 : Z,
        exists w2,
          run w1 [at_time t3 (signal sig_pick_up_order);
                  at_time t4 (activity_completed none_result)] = Some w2 /\
          pc w2 = returned OrderState.ORDER_PICKED_UP).
Proof.
  destruct (expired_order_waits_for_pick_up accepted_instance accepted_frame
              30000900 30001500 eq_refl eq_refl)
    as (w1 & fr1 & Hrun & Hpc & Hs & _ & _ & _ & Hpick).
  exists w1, fr1. repeat split; try assumption.
  intros t3 t4. destruct (Hpick t3 t4) as (w2 & Hrun2 & Hpc2 & _).
  exists w2. split; assumption.
Defined.

(* ------------------------------------------------------------------ *)
(** ** Fetches and recipients *)

Lemma fetches_snoc (cs : list Command) (c : Command) :
  fetches (cs ++ [c]) = fetches cs ++ fetch_of c.
Proof.
  unfold fetches. rewrite flat_map_app. simpl. now rewrite app_nil_r.
Qed.

Lemma user_notification_inputs_snoc (cs : list Command) (c : Command) :
  user_notification_inputs (cs ++ [c]) =
  user_notification_inputs cs ++ user_input_of c.
Proof.
  unfold user_notification_inputs. rewrite flat_map_app. simpl.
  now rewrite app_nil_r.
Qed.

Lemma sent_by_frame_remaining (a : OrderWorkflowInput) (fr : Frame) (d : Z)
      (cs : list Command) :
  sent_by_frame a (set_remaining d fr) cs <-> sent_by_frame a fr cs.
Proof. reflexivity. Qed.

(** A notification of [run] goes to the user of the frame. *)
Lemma sent_by_frame_notify (a : OrderWorkflowInput) (w : Instance)
      (fr : Frame) (m : UserNotificationMessageType.t) :
  arg w = a ->
  sent_by_frame a fr (commands w) ->
  exists act,
    notify_user (user_input w fr m) = Some act /\
    fetch_of (execute_activity act) = [] /\
    sent_by_frame a fr (commands w ++ [execute_activity act]).
Proof.
  intros Ha Hsent. unfold notify_user, user_input. simpl.
  destruct (up_notification_preference (user_preference fr)) eqn:Hp;
    eexists; (split; [reflexivity|]); (split; [reflexivity|]);
    unfold sent_by_frame in *; rewrite user_notification_inputs_snoc;
    apply Forall_app; (split; [exact Hsent|]);
    simpl; constructor; [|constructor| |constructor];
    unfold sent_to; simpl; rewrite Ha, Hp; repeat split.
Qed.

Lemma dispatch_finished (a : OrderWorkflowInput) (fr : Frame)
      (cs : list Command) :
  fetches cs = all_fetches a -> sent_by_frame a fr cs ->
  (exists n, fetches cs = firstn n (all_fetches a)) /\
  exists user_id preference,
    Forall (sent_to a user_id preference) (user_notification_inputs cs).
Proof.
  intros Hf Hs. split; [exists 3%nat; exact Hf|].
  eexists. eexists. exact Hs.
Qed.

Lemma dispatch_invariant_start (a : OrderWorkflowInput) (start_time now : Z) :
  dispatch_invariant a (start a start_time now).
Proof. repeat split. Qed.
Ltac normalize_dispatch :=
  simpl in *;
  repeat (progress
            (rewrite ?fetches_snoc, ?user_notification_inputs_snoc,
               ?app_nil_r in *;
             simpl in *)).

Ltac close_dispatch :=
  repeat match goal with
         | |- _ /\ _ => split
         | H : _ /\ _ |- _ => destruct H
         end;
  try assumption; try reflexivity; try congruence;
  try (match goal with
       | H : fetches ?cs = _ |- context [fetches ?cs] => rewrite H; reflexivity
       end);
  try (eapply dispatch_finished; eassumption);
  try (exists 1%nat; assumption); try (exists 2%nat; assumption);
  try (exists 3%nat; assumption);
  try (exists EmptyString, NotificationChannelType.SMS;
       match goal with
       | H : user_notification_inputs ?cs = [] |- _ => rewrite H; constructor
       end).

Lemma dispatch_resume (a : OrderWorkflowInput) (w : Instance) (fr : Frame)
      (timed_out : bool) :
  arg w = a ->
  fetches (commands w) = all_fetches a ->
  sent_by_frame a fr (commands w) ->
  dispatch_invariant a (resume_wait_with_expiration timed_out fr w).
Proof.
  intros Ha Hf Hs.
  unfold resume_wait_with_expiration, match_order_state, await_helper.
  set (w0 := if timed_out then update_self on_timeout w else w).
  assert (Ha0 : arg w0 = a) by (subst w0; now destruct timed_out).
  assert (Hc0 : commands w0 = commands w) by (subst w0; now destruct timed_out).
  set (fr' := set_remaining (remaining_now w0) fr).
  set (m := message_for (order_state (self w0))).
  destruct (sent_by_frame_notify a w0 fr' m Ha0) as (act & -> & Hfetch & Hsent).
  { rewrite Hc0. exact Hs. }
  unfold dispatch_invariant. simpl.
  rewrite fetches_snoc, Hfetch, app_nil_r, Hc0.
  rewrite Hc0 in Hsent.
  split; [exact Ha0|]. split; [exact Hf | exact Hsent].
Qed.

Lemma dispatch_notify_completed (a : OrderWorkflowInput) (w : Instance)
      (fr : Frame) :
  arg w = a ->
  fetches (commands w) = all_fetches a ->
  sent_by_frame a fr (commands w) ->
  dispatch_invariant a (notify_completed fr w).
Proof.
  intros Ha Hf Hs. unfold notify_completed, await_helper.
  destruct (sent_by_frame_notify a w fr
              UserNotificationMessageType.ORDER_COMPLETED Ha Hs)
    as (act & -> & Hfetch & Hsent).
  unfold dispatch_invariant. simpl.
  rewrite fetches_snoc, Hfetch, app_nil_r.
  split; [exact Ha|]. split; [exact Hf | exact Hsent].
Qed.

Lemma dispatch_invariant_step (a : OrderWorkflowInput) (w w' : Instance)
      (t : Task) :
  dispatch_invariant a w -> step w t = Some w' -> dispatch_invariant a w'.
Proof.
  intros Inv Hstep. unfold step in Hstep.
  destruct (finished (pc w)) eqn:Hfin.
  { injection Hstep as <-. exact Inv. }
  destruct w as [o a' p nw si cs].
  destruct Inv as [Ha Inv]. simpl in Ha. subst a'. simpl in *.
  destruct p as [ | od | od | od | fr | fr msg | fr | res | ];
    try discriminate Hfin;
    destruct (task_event t) as [s | r | | ]; simpl in Hstep;
    try discriminate Hstep;
    try (unfold on_activity_completed in Hstep; simpl in Hstep;
         destruct r as [od' | vp | up | ]; try discriminate Hstep);
    injection Hstep as <-.
  (* signals that only run a handler *)
  all: try (unfold on_signal, dispatch_invariant; simpl;
            split; [reflexivity | exact Inv]).
  (* failures *)
  all: try (unfold dispatch_invariant; simpl; split; [reflexivity|];
            destruct Inv as [Hf Hs]; normalize_dispatch; close_dispatch).
  - (* the vendor preference is fetched *)
    destruct Inv as [Hf Hs].
    unfold await_helper, notify_vendor, vendor_input. simpl.
    destruct (vp_notification_preference vp);
      unfold dispatch_invariant; simpl; normalize_dispatch; close_dispatch.
  - (* the loop is entered *)
    destruct Inv as [Hf Hs]. unfold enter_loop. simpl.
    assert (Hs' : forall fr c, user_input_of c = [] ->
                    sent_by_frame a fr (cs ++ [c])).
    { intros fr c Hc. unfold sent_by_frame.
      rewrite user_notification_inputs_snoc, Hs, Hc. constructor. }
    destruct (is_new_state o).
    + apply dispatch_resume; simpl.
      * reflexivity.
      * rewrite fetches_snoc. simpl. now rewrite app_nil_r.
      * now apply Hs'.
    + unfold dispatch_invariant. simpl. split; [reflexivity|].
      rewrite fetches_snoc. simpl. rewrite app_nil_r.
      split; [exact Hf | now apply Hs'].
  - (* a signal while waiting with expiration *)
    destruct Inv as [Hf Hs]. unfold on_signal. simpl.
    destruct (is_new_state (handle_signal s o)).
    + now apply dispatch_resume.
    + unfold dispatch_invariant. simpl. split; [reflexivity|]. now split.
  - (* the timer fires *)
    destruct Inv as [Hf Hs]. now apply dispatch_resume.
  - (* a notification is delivered *)
    destruct Inv as [Hf Hs].
    assert (Hs' : forall c, user_input_of c = [] ->
                    sent_by_frame a fr (cs ++ [c])).
    { intros c Hc. unfold sent_by_frame in *.
      rewrite user_notification_inputs_snoc, Hc, app_nil_r. exact Hs. }
    destruct msg; simpl.
    + unfold dispatch_invariant. simpl. split; [reflexivity|].
      rewrite fetches_snoc. simpl. rewrite app_nil_r.
      split; [exact Hf | now apply Hs'].
    + unfold dispatch_invariant. simpl. split; [reflexivity|].
      now apply (dispatch_finished a fr).
    + unfold dispatch_invariant. simpl. split; [reflexivity|].
      rewrite fetches_snoc. simpl. rewrite app_nil_r.
      split; [exact Hf | now apply Hs'].
    + unfold wait_picked_up. simpl. destruct (picked_up _).
      * apply dispatch_notify_completed; simpl.
        -- reflexivity.
        -- rewrite fetches_snoc. simpl. now rewrite app_nil_r.
        -- now apply Hs'.
      * unfold dispatch_invariant. simpl. split; [reflexivity|].
        rewrite fetches_snoc. simpl. rewrite app_nil_r.
        split; [exact Hf | now apply Hs'].
    + unfold dispatch_invariant. simpl. split; [reflexivity|].
      now apply (dispatch_finished a fr).
  - (* a signal while waiting for the pick-up *)
    destruct Inv as [Hf Hs]. unfold on_signal. simpl.
    destruct (picked_up _).
    + now apply dispatch_notify_completed.
    + unfold dispatch_invariant. simpl. split; [reflexivity|]. now split.
Qed.

Lemma dispatch_invariant_reached (a : OrderWorkflowInput)
      (start_time now : Z) (history : list Task) :
  forall w : Instance,
    run (start a start_time now) history = Some w -> dispatch_invariant a w.
Proof.
  assert (H : forall w0 w, dispatch_invariant a w0 ->
                           run w0 history = Some w -> dispatch_invariant a w).
  { induction history as [|t rest IH]; intros w0 w Inv Hrun; simpl in Hrun.
    - now injection Hrun as <-.
    - destruct (step w0 t) as [w1|] eqn:Hstep; [|discriminate].
      exact (IH w1 w (dispatch_invariant_step a w0 w1 t Inv Hstep) Hrun). }
  intros w. apply H, dispatch_invariant_start.
Qed.

(** X15.  Order data and preferences are fetched once.  In every run the
    fetches executed so far are an initial part of: order details, vendor
    preference, user preference, each called with the order id of the
    input; none is repeated once the loop runs.  And all notifications sent
    to the user in a run carry the order id of the input and one and the
    same user id and preference. *)
Theorem data_is_fetched_once
        (a : OrderWorkflowInput) (start_time now : Z)
        (history : list Task) (w : Instance) :
  run (start a start_time now) history = Some w ->
  (exists n, fetches (commands w) = firstn n (all_fetches a)) /\
  (exists user_id preference,
      Forall (sent_to a user_id preference)
             (user_notification_inputs (commands w))) /\
  (forall fr,
      pc w = at_wait_with_expiration fr \/ pc w = at_wait_picked_up fr \/
      (exists m, pc w = at_notify_user fr m) ->
      fetches (commands w) = all_fetches a /\
      sent_by_frame a fr (commands w)).
Proof.
  intros Hrun.
  pose proof (dispatch_invariant_reached a start_time now history w Hrun)
    as [_ Inv].
  assert (Hframe : forall fr,
             pc w = at_wait_with_expiration fr \/ pc w = at_wait_picked_up fr \/
             (exists m, pc w = at_notify_user fr m) ->
             fetches (commands w) = all_fetches a /\
             sent_by_frame a fr (commands w)).
  { intros fr [H | [H | (m & H)]]; rewrite H in Inv; exact Inv. }
  assert (Hnil : user_notification_inputs (commands w) = [] ->
                 exists user_id preference,
                   Forall (sent_to a user_id preference)
                          (user_notification_inputs (commands w))).
  { intros ->. exists EmptyString, NotificationChannelType.SMS. constructor. }
  split; [|split; [|exact Hframe]];
    destruct (pc w) as [ | od | od | od | fr | fr msg | fr | res | ] eqn:Hpc;
    try (destruct Inv as [Hf Hs]);
    try (now apply Hnil);
    try (now apply (dispatch_finished a fr));
    try assumption.
  - now exists 1%nat.
  - now exists 2%nat.
  - now exists 2%nat.
  - now exists 3%nat.
Qed.

Lemma data_is_fetched_once_witness :
  (exists n,
      fetches (commands picked_up_instance) =
      firstn n (all_fetches sample_input)) /\
  (exists user_id preference,
      Forall (sent_to sample_input user_id preference)
             (user_notification_inputs (commands picked_up_instance))).
Proof.
  destruct (data_is_fetched_once sample_input 0 0 hasty_history
              picked_up_instance) as (Hf & Hs & _).
  - vm_compute. reflexivity.
  - split; assumption.
Defined.

(* ------------------------------------------------------------------ *)
(** ** The shape of the table *)

(** X16.  [_STATE_TRANSITIONS] is a tree rooted at ORDER_PLACED: every
    other state is reached from ORDER_PLACED, and no state has two
    predecessors.  So each signal is applied in exactly one state: two
    instances in which the same signal changes the state are in the same
    state. *)
Theorem transition_table_is_a_tree :
  (forall s : OrderState.t,
      s = OrderState.ORDER_PLACED \/ transitions OrderState.ORDER_PLACED s) /\
  (forall s1 s2 t : OrderState.t,
      can_transition_to s1 t = true -> can_transition_to s2 t = true ->
      s1 = s2) /\
  (forall (sig : SignalName) (o1 o2 : Orders),
      order_state (handle_signal sig o1) <> order_state o1 ->
      order_state (handle_signal sig o2) <> order_state o2 ->
      order_state o1 = order_state o2).
Proof.
  assert (Hpred : forall s1 s2 t,
             can_transition_to s1 t = true -> can_transition_to s2 t = true ->
             s1 = s2).
  { intros s1 s2 t. destruct s1, s2, t; simpl; intros H1 H2;
      try reflexivity; discriminate. }
  split; [|split; [exact Hpred|]].
  - assert (H1 : transitions OrderState.ORDER_PLACED OrderState.VENDOR_NOTIFIED)
      by (apply transitions_one; reflexivity).
    assert (Hstep : forall r s t, transitions r s ->
                                  can_transition_to s t = true ->
                                  transitions r t).
    { intros r s t Hs Ht. induction Hs as [a b Hab | a b c Hab _ IH].
      - apply (transitions_more a b t Hab). now apply transitions_one.
      - apply (transitions_more a b t Hab). now apply IH. }
    assert (H2 : transitions OrderState.ORDER_PLACED OrderState.ORDER_ACCEPTED)
      by (apply (Hstep _ _ _ H1); reflexivity).
    assert (H3 : transitions OrderState.ORDER_PLACED
                             OrderState.ORDER_PREPARATION)
      by (apply (Hstep _ _ _ H2); reflexivity).
    assert (H4 : transitions OrderState.ORDER_PLACED OrderState.ORDER_READY)
      by (apply (Hstep _ _ _ H3); reflexivity).
    intros s. destruct s.
    + left. reflexivity.
    + right. exact H1.
    + right. exact H2.
    + right. apply (Hstep _ _ _ H1). reflexivity.
    + right. exact H3.
    + right. exact H4.
    + right. apply (Hstep _ _ _ H4). reflexivity.
  - intros sig o1 o2 Hc1 Hc2.
    rewrite handle_signal_order_state in Hc1, Hc2.
    destruct (can_transition_to (order_state o1) (target sig)) eqn:E1;
      [|now contradiction Hc1].
    destruct (can_transition_to (order_state o2) (target sig)) eqn:E2;
      [|now contradiction Hc2].
    exact (Hpred _ _ _ E1 E2).
Qed.

(* ------------------------------------------------------------------ *)
(** ** Rejected signals *)

(** X17.  A signal whose target is not allowed in the current state
    changes nothing of a run: the instance fields stay as they are, [run]
    stays where it is (a pending wait is not ended), and nothing is asked of
    the runtime. *)
Theorem rejected_signal_changes_nothing
        (a : OrderWorkflowInput) (start_time now : Z)
        (history : list Task) (w w' : Instance) (s : SignalName) (t : Z) :
  run (start a start_time now) history = Some w ->
  can_transition_to (order_state (self w)) (target s) = false ->
  step w (at_time t (signal s)) = Some w' ->
  self w' = self w /\ pc w' = pc w /\ commands w' = commands w.
Proof.
  intros Hrun Hcan Hstep.
  pose proof (run_invariant_reached a start_time now history w Hrun) as Inv.
  assert (Hid : handle_signal s (self w) = self w)
    by now apply handle_signal_no_successor.
  unfold step in Hstep.
  destruct (finished (pc w)) eqn:Hfin.
  { injection Hstep as <-. repeat split. }
  simpl in Hstep. injection Hstep as <-.
  split; [now rewrite self_on_signal|].
  unfold on_signal. simpl. rewrite Hid.
  unfold run_invariant in Inv.
  destruct (pc w) as [ | od | od | od | fr | fr msg | fr | res | ] eqn:Hpc;
    simpl; try discriminate Hfin;
    try (split; [exact Hpc | reflexivity]).
  - destruct Inv as (_ & _ & _ & _ & _ & _ & _ & _ & Hflag & _).
    rewrite Hflag. simpl. split; [exact Hpc | reflexivity].
  - destruct Inv as (_ & _ & _ & _ & _ & _ & _ & _ & Hstate & _).
    unfold picked_up. simpl. rewrite Hid, Hstate. simpl.
    split; [exact Hpc | reflexivity].
Qed.

Lemma rejected_signal_changes_nothing_witness :
  exists w',
    step accepted_instance (at_time 8000000 (signal sig_decline_order)) =
      Some w' /\
    self w' = self accepted_instance /\
    pc w' = pc accepted_instance /\
    commands w' = commands accepted_instance.
Proof.
  eexists. split; [vm_compute; reflexivity|].
  apply (rejected_signal_changes_nothing sample_input 0 0 accepted_history
           accepted_instance _ sig_decline_order 8000000).
  - exact accepted_history_run.
  - reflexivity.
  - vm_compute. reflexivity.
Defined.
